(** * Booking engine of the hotel reservation API

    A shallow embedding of the booking controller
    ([createBooking], [updateBookingStatus], [updatePaymentStatus],
    [cancelBooking]), of the two availability queries
    ([checkRoomAvailability] of utils/apiHelpers.js and
    [getRoomAvailability] of controllers/roomController.js), of the
    pricing helper [calculateBookingPricing], of the body validation of
    routes/bookings.js and of the Booking schema of models/Booking.js
    with its pre-save hook.

    Conventions.
    - A JavaScript [Date] is the integer number of milliseconds since the
      epoch ([Z]); invalid dates are excluded by the type.
    - A JavaScript number that carries money is an exact rational ([Q]);
      equalities between amounts are stated with [==].  The source computes
      on IEEE doubles; the model is exact arithmetic.
    - The clock ([new Date()], [Date.now()]) and [Math.random()] are inputs
      of each operation, gathered in [Env].
    - The [bookings] collection is the list of its documents, in insertion
      order; [_id] is the key that [findById] searches.  Identifiers are
      well-formed ObjectIds, so no [CastError] arises.
    - A document stores the paths its schema declares.  models/Booking.js
      comes in two definitions that declare the same paths and defaults;
      the embedding follows the first, which attaches no validator, so
      that [save] fails on the unique index of [bookingId] only.
    - [populate], the socket notification and the [createdAt]/[updatedAt]
      timestamps are left out. *)

From Stdlib Require Import ZArith QArith Qround Lqa Ascii String List Lia.
From stdpp Require Import base gmap strings list pretty.

Local Open Scope string_scope.
Local Open Scope Z_scope.

(** ** JavaScript values held by nested objects *)

Inductive JsVal : Type :=
  | JStr  (s : string)
  | JNum  (q : Q)
  | JDate (ms : Z)
  | JBool (b : bool).

(** A plain JavaScript object used as a record of named fields. *)
Abbreviation JsObject := (gmap string JsVal).

Module Js.

(** [!!s] for a string that may be [undefined]. *)
Definition truthyStr (o : option string) : bool :=
  match o with
  | Some s => negb (String.eqb s "")
  | None => false
  end.

(** [a || b] where [a] is a string or [undefined]. *)
Definition orStr (a : option string) (b : string) : string :=
  match a with
  | Some s => if String.eqb s "" then b else s
  | None => b
  end.

(** [a || b] where [a] is a number or [undefined]: 0 is falsy. *)
Definition orNum (a : option Q) (b : Q) : Q :=
  match a with
  | Some q => if Qeq_bool q 0 then b else q
  | None => b
  end.

Definition orInt (a : option Z) (b : Z) : Z :=
  match a with
  | Some n => if n =? 0 then b else n
  | None => b
  end.

(** [Math.ceil(a / b)] on integers, [b > 0]. *)
Definition ceilDiv (a b : Z) : Z := - ((- a) / b).

(** [Math.round(x)]: the nearest integer, halves towards +infinity. *)
Definition round (x : Q) : Z := Qfloor (x + (1 # 2)).

(** [s.slice(-4)]. *)
Definition sliceLast4 (s : string) : string :=
  String.substring (String.length s - 4)%nat 4 s.

Definition isSpace (c : ascii) : bool :=
  let n := nat_of_ascii c in
  ((9 <=? n) && (n <=? 13) || (n =? 32))%nat.

Fixpoint dropSpaces (s : string) : string :=
  match s with
  | String c rest => if isSpace c then dropSpaces rest else s
  | EmptyString => EmptyString
  end.

Fixpoint rev (acc s : string) : string :=
  match s with
  | String c rest => rev (String c acc) rest
  | EmptyString => acc
  end.

(** [s.trim()], for the ASCII white space. *)
Definition trim (s : string) : string :=
  rev "" (dropSpaces (rev "" (dropSpaces s))).

(** [s.toLowerCase()], for the ASCII letters. *)
Definition lowerChar (c : ascii) : ascii :=
  let n := nat_of_ascii c in
  if ((65 <=? n) && (n <=? 90))%nat then ascii_of_nat (n + 32) else c.

Fixpoint toLowerCase (s : string) : string :=
  match s with
  | String c rest => String (lowerChar c) (toLowerCase rest)
  | EmptyString => EmptyString
  end.

(** [arr.includes(x)] on an array of strings, [x] possibly [undefined]. *)
Definition includes (arr : list string) (x : option string) : bool :=
  match x with
  | Some s => bool_decide (s ∈ arr)
  | None => false
  end.

End Js.

(** ** Mongoose documents under the default [strict] option

    A schema declares paths; only declared paths are stored.  Keys of an
    object given to the model constructor, or assigned to a nested path,
    that the schema does not declare are dropped silently; a declared
    default fills a path the object leaves unset at construction. *)

Module Mongoose.

Record SchemaPath : Type := mkPath {
  pathName : string;
  pathDefault : option JsVal;
  pathSetter : string -> string   (* [trim], [lowercase]; else identity *)
}.

(** The value a path stores for an assigned value. *)
Definition applySetter (p : SchemaPath) (v : JsVal) : JsVal :=
  match v with
  | JStr s => JStr (pathSetter p s)
  | _ => v
  end.

Definition Schema : Type := list SchemaPath.

(** Keep the declared keys of [obj]. *)
Definition cast (sch : Schema) (obj : JsObject) : JsObject :=
  foldr (fun p acc =>
           match obj !! pathName p with
           | Some v => <[pathName p := applySetter p v]> acc
           | None => acc
           end) ∅ sch.

Definition applyDefaults (sch : Schema) (doc : JsObject) : JsObject :=
  foldr (fun p acc =>
           match acc !! pathName p, pathDefault p with
           | None, Some d => <[pathName p := d]> acc
           | _, _ => acc
           end) doc sch.

(** [new Model({ nested: obj })] restricted to one nested path. *)
Definition construct (sch : Schema) (obj : JsObject) : JsObject :=
  applyDefaults sch (cast sch obj).

(** [doc.nested.k = v]. *)
Definition assign (sch : Schema) (k : string) (v : JsVal)
    (doc : JsObject) : JsObject :=
  match List.find (fun p => String.eqb (pathName p) k) sch with
  | Some p => <[k := applySetter p v]> doc
  | None => doc
  end.

(** [doc.nested = obj]: the nested path is overwritten by the declared
    keys of [obj]. *)
Definition overwrite (sch : Schema) (obj : JsObject) : JsObject :=
  cast sch obj.

End Mongoose.

(** ** models/Booking.js *)

Module BookingSchema.
Import Mongoose.

Definition guestInfo : Schema :=
  [ mkPath "firstName" None Js.trim; mkPath "lastName" None Js.trim;
    mkPath "email" None Js.toLowerCase; mkPath "phone" None id;
    mkPath "address.street" None id; mkPath "address.city" None id;
    mkPath "address.state" None id; mkPath "address.zipCode" None id;
    mkPath "address.country" (Some (JStr "United States")) id;
    mkPath "specialRequests" None id ].

Definition pricing : Schema :=
  [ mkPath "pricePerNight" None id; mkPath "subtotal" None id;
    mkPath "taxes" None id; mkPath "fees" (Some (JNum 0)) id;
    mkPath "totalAmount" None id;
    mkPath "currency" (Some (JStr "USD")) id ].

Definition paymentInfo : Schema :=
  [ mkPath "paymentMethod" None id;
    mkPath "paymentStatus" (Some (JStr "pending")) id;
    mkPath "transactionId" None id; mkPath "paymentDate" None id;
    mkPath "cardLastFour" None id ].

Definition cancellation : Schema :=
  [ mkPath "isCancelled" (Some (JBool false)) id;
    mkPath "cancelledAt" None id; mkPath "cancellationReason" None id;
    mkPath "refundAmount" None id ].

(** The [enum] that the validating definition of the schema gives to
    [bookingStatus]. *)
Definition bookingStatusEnum : list string :=
  [ "confirmed"; "pending"; "cancelled"; "checked_in"; "checked_out";
    "no_show" ].

End BookingSchema.

Definition ObjectId : Type := nat.

(** A stored booking document: the top-level schema paths as fields, the
    nested paths as objects holding their declared sub-paths. *)
Record Booking : Type := mkBooking {
  _id : ObjectId;
  bookingId : option string;
  room : ObjectId;
  guestInfo : JsObject;
  checkInDate : Z;
  checkOutDate : Z;
  numberOfGuests : Z;
  numberOfNights : Z;
  pricing : JsObject;
  paymentInfo : JsObject;
  bookingStatus : string;
  confirmationNumber : option string;
  notes : option string;
  source : string;
  cancellation : JsObject;
  checkInTime : option Z;
  checkOutTime : option Z
}.

(** Assignment to one top-level path of a document, [b.f = v]. *)

Definition set_bookingId (v : option string) (b : Booking) : Booking :=
  mkBooking
    (_id b) v (room b) (guestInfo b) (checkInDate b) (checkOutDate b)
    (numberOfGuests b) (numberOfNights b) (pricing b) (paymentInfo b)
    (bookingStatus b) (confirmationNumber b) (notes b) (source b)
    (cancellation b) (checkInTime b) (checkOutTime b).

Definition set_numberOfNights (v : Z) (b : Booking) : Booking :=
  mkBooking
    (_id b) (bookingId b) (room b) (guestInfo b) (checkInDate b)
    (checkOutDate b) (numberOfGuests b) v (pricing b) (paymentInfo b)
    (bookingStatus b) (confirmationNumber b) (notes b) (source b)
    (cancellation b) (checkInTime b) (checkOutTime b).

Definition set_paymentInfo (v : JsObject) (b : Booking) : Booking :=
  mkBooking
    (_id b) (bookingId b) (room b) (guestInfo b) (checkInDate b)
    (checkOutDate b) (numberOfGuests b) (numberOfNights b) (pricing b) v
    (bookingStatus b) (confirmationNumber b) (notes b) (source b)
    (cancellation b) (checkInTime b) (checkOutTime b).

Definition set_bookingStatus (v : string) (b : Booking) : Booking :=
  mkBooking
    (_id b) (bookingId b) (room b) (guestInfo b) (checkInDate b)
    (checkOutDate b) (numberOfGuests b) (numberOfNights b) (pricing b)
    (paymentInfo b) v (confirmationNumber b) (notes b) (source b)
    (cancellation b) (checkInTime b) (checkOutTime b).

Definition set_confirmationNumber (v : option string) (b : Booking) : Booking :=
  mkBooking
    (_id b) (bookingId b) (room b) (guestInfo b) (checkInDate b)
    (checkOutDate b) (numberOfGuests b) (numberOfNights b) (pricing b)
    (paymentInfo b) (bookingStatus b) v (notes b) (source b)
    (cancellation b) (checkInTime b) (checkOutTime b).

Definition set_notes (v : option string) (b : Booking) : Booking :=
  mkBooking
    (_id b) (bookingId b) (room b) (guestInfo b) (checkInDate b)
    (checkOutDate b) (numberOfGuests b) (numberOfNights b) (pricing b)
    (paymentInfo b) (bookingStatus b) (confirmationNumber b) v (source b)
    (cancellation b) (checkInTime b) (checkOutTime b).

Definition set_cancellation (v : JsObject) (b : Booking) : Booking :=
  mkBooking
    (_id b) (bookingId b) (room b) (guestInfo b) (checkInDate b)
    (checkOutDate b) (numberOfGuests b) (numberOfNights b) (pricing b)
    (paymentInfo b) (bookingStatus b) (confirmationNumber b) (notes b)
    (source b) v (checkInTime b) (checkOutTime b).

Definition set_checkInTime (v : option Z) (b : Booking) : Booking :=
  mkBooking
    (_id b) (bookingId b) (room b) (guestInfo b) (checkInDate b)
    (checkOutDate b) (numberOfGuests b) (numberOfNights b) (pricing b)
    (paymentInfo b) (bookingStatus b) (confirmationNumber b) (notes b)
    (source b) (cancellation b) v (checkOutTime b).

Definition set_checkOutTime (v : option Z) (b : Booking) : Booking :=
  mkBooking
    (_id b) (bookingId b) (room b) (guestInfo b) (checkInDate b)
    (checkOutDate b) (numberOfGuests b) (numberOfNights b) (pricing b)
    (paymentInfo b) (bookingStatus b) (confirmationNumber b) (notes b)
    (source b) (cancellation b) (checkInTime b) v.

(** ** Environment, rooms and the collection *)

(** What an operation reads from outside the store: the clock and
    [Math.random().toString(36).substr(2, n).toUpperCase()]. *)
Record Env : Type := mkEnv {
  now : Z;
  random36 : nat -> string
}.

(** A room document as the booking controller reads it. *)
Record Room : Type := mkRoom {
  roomId : ObjectId;
  roomName : string;
  isAvailable : bool;
  pricePerNight : option Q;
  pricing_basePrice : option Q;     (* roomData.pricing?.basePrice *)
  maxOccupancy : option Z;
  availability_maxOccupancy : option Z
                           (* roomData.availability?.maxOccupancy *)
}.

Definition msPerDay : Z := 1000 * 60 * 60 * 24.

Module RoomModel.
Fixpoint findById (id : ObjectId) (rooms : list Room) : option Room :=
  match rooms with
  | [] => None
  | r :: rest => if Nat.eqb (roomId r) id then Some r else findById id rest
  end.
End RoomModel.

Module BookingModel.

Fixpoint findById (id : ObjectId) (db : list Booking) : option Booking :=
  match db with
  | [] => None
  | b :: rest => if Nat.eqb (_id b) id then Some b else findById id rest
  end.

(** The document with the [_id] of [d] is replaced by [d]. *)
Fixpoint replace (d : Booking) (db : list Booking) : list Booking :=
  match db with
  | [] => []
  | b :: rest =>
      if Nat.eqb (_id b) (_id d) then d :: rest else b :: replace d rest
  end.

(** An [_id] no stored document has. *)
Definition freshId (db : list Booking) : ObjectId :=
  S (foldr Nat.max 0%nat (_id <$> db)).

(** [bookingSchema.pre('save', ...)]. *)
Definition preSave (env : Env) (b : Booking) : Booking :=
  let b1 :=
    if Js.truthyStr (bookingId b) then b
    else set_bookingId
           (Some ("BK" +:+ pretty (now env) +:+ random36 env 5)) b in
  let b2 :=
    if negb (Js.truthyStr (confirmationNumber b1))
       && String.eqb (bookingStatus b1) "confirmed"
    then set_confirmationNumber
           (Some ("CONF" +:+ pretty (now env) +:+ random36 env 6)) b1
    else b1 in
  set_numberOfNights
    (Js.ceilDiv (checkOutDate b2 - checkInDate b2) msPerDay) b2.

(** [await booking.save()] of a new document.  The schema declares
    [bookingId] unique: the insert is refused (duplicate key) when a
    stored document has the same [bookingId]. *)
Definition insert (env : Env) (b : Booking) (db : list Booking)
    : option (Booking * list Booking) :=
  let saved := preSave env b in
  if existsb (fun x => bool_decide (bookingId x = bookingId saved)) db
  then None
  else Some (saved, (db ++ [saved])%list).

(** [await booking.save()] of a document found in the collection. *)
Definition save (env : Env) (b : Booking) (db : list Booking)
    : Booking * list Booking :=
  let saved := preSave env b in (saved, replace saved db).

(** The find filter shared by the overlap queries: same room, status in
    [statuses], [checkInDate < checkOut] and [checkOutDate > checkIn]. *)
Definition overlapQuery (roomRef : ObjectId) (statuses : list string)
    (checkIn checkOut : Z) (b : Booking) : bool :=
  Nat.eqb (room b) roomRef
  && bool_decide (bookingStatus b ∈ statuses)
  && (checkInDate b <? checkOut)
  && (checkIn <? checkOutDate b).

End BookingModel.

(** ** models/Booking.js: the [duration] virtual *)

Definition duration (b : Booking) : Z :=
  Js.ceilDiv (checkOutDate b - checkInDate b) msPerDay.

(** ** Requests and responses *)

Inductive Response : Type :=
  | Success (code : Z) (message : string) (data : Booking)
  | Failure (code : Z) (message : string).

(** Body of [POST /api/bookings]; [validationOk] is
    [validationResult(req).isEmpty()]. *)
Record CreateBody : Type := mkCreateBody {
  validationOk : bool;
  body_room : ObjectId;
  body_checkInDate : Z;
  body_checkOutDate : Z;
  body_numberOfGuests : Z;
  body_guestInfo : gmap string string;
  body_paymentMethod : option string;    (* paymentInfo.method *)
  body_cardNumber : option string;       (* paymentInfo.cardNumber *)
  body_specialRequests : option string
}.

Record StatusBody : Type := mkStatusBody {
  sb_status : option string;
  sb_notes : option string
}.

(** Body of [PATCH /api/bookings/:id/payment].  The route validates the
    key [paymentStatus]; the controller reads the key [status]. *)
Record PaymentBody : Type := mkPaymentBody {
  pb_status : option string;
  pb_paymentStatus : option string;
  pb_transactionId : option string;
  pb_paymentDate : option Z
}.

Record CancelBody : Type := mkCancelBody {
  cb_reason : option string;
  cb_refundAmount : option Q
}.

Definition optInsert (k : string) (v : option JsVal) (o : JsObject)
    : JsObject :=
  match v with
  | Some x => <[k := x]> o
  | None => o
  end.

(** ** utils/apiHelpers.js *)

Record Pricing : Type := mkPricing {
  p_pricePerNight : Q;
  p_subtotal : Q;
  p_taxes : Q;
  p_fees : Q;
  p_totalAmount : Q
}.

(** [Math.round(x * 100) / 100]. *)
Definition roundCents (x : Q) : Q := inject_Z (Js.round (x * 100)) / 100.

(** [taxRate] and [serviceFeesRate] default to 0.1 and 0.05. *)
Definition calculateBookingPricing (basePrice : Q) (nights : Z)
    (taxRate serviceFeesRate : Q) : Pricing :=
  let subtotal := (basePrice * inject_Z nights)%Q in
  let taxes := (subtotal * taxRate)%Q in
  let fees := (subtotal * serviceFeesRate)%Q in
  let totalAmount := (subtotal + taxes + fees)%Q in
  mkPricing basePrice (roundCents subtotal) (roundCents taxes)
    (roundCents fees) (roundCents totalAmount).

Definition checkRoomAvailability (db : list Booking) (roomRef : ObjectId)
    (checkIn checkOut : Z) (excludeBookingId : option ObjectId) : bool :=
  let query b :=
    BookingModel.overlapQuery roomRef ["confirmed"; "checked-in"]
      checkIn checkOut b
    && match excludeBookingId with
       | Some ex => negb (Nat.eqb (_id b) ex)
       | None => true
       end in
  let conflictingBookings := List.filter query db in
  Nat.eqb (length conflictingBookings) 0.

(** ** controllers/roomController.js *)

Inductive AvailabilityResponse : Type :=
  | Availability (isAvail : bool) (conflictingBookings : nat)
  | AvailabilityFailure (code : Z) (message : string).

Definition getRoomAvailability (rooms : list Room) (db : list Booking)
    (id : ObjectId) (checkIn checkOut : option Z) : AvailabilityResponse :=
  match checkIn, checkOut with
  | Some ci, Some co =>
      if co <=? ci then
        AvailabilityFailure 400 "Check-out date must be after check-in date"
      else
        match RoomModel.findById id rooms with
        | None => AvailabilityFailure 404 "Room not found"
        | Some r =>
            let conflictingBookings :=
              List.filter
                (BookingModel.overlapQuery id ["confirmed"; "checked_in"]
                   ci co) db in
            Availability
              (Nat.eqb (length conflictingBookings) 0 && isAvailable r)
              (length conflictingBookings)
        end
  | _, _ =>
      AvailabilityFailure 400 "Check-in and check-out dates are required"
  end.

(** ** controllers/bookingController.js *)

Module Controller.
Import BookingModel.

Definition guestInfoData (gi : gmap string string)
    (specialRequests : option string) : JsObject :=
  optInsert "firstName" (JStr <$> gi !! "firstName")
  (optInsert "lastName" (JStr <$> gi !! "lastName")
  (optInsert "email" (JStr <$> gi !! "email")
  (optInsert "phone" (JStr <$> gi !! "phone")
  (<["address.street" := JStr (Js.orStr (gi !! "address.street") "")]>
  (<["address.city" := JStr (Js.orStr (gi !! "address.city") "")]>
  (<["address.state" := JStr (Js.orStr (gi !! "address.state") "")]>
  (<["address.zipCode" := JStr (Js.orStr (gi !! "address.zipCode") "")]>
  (<["address.country" := JStr (Js.orStr (gi !! "address.country") "")]>
  (<["specialRequests" := JStr (Js.orStr specialRequests "")]>
     ∅))))))))).

Definition taxRate : Q := 12 # 100.
Definition serviceFee : Q := 25.

(** The [pricing] object literal of [bookingData]. *)
Definition pricingData (pricePerNight : Q) (numberOfNights : Z)
    : JsObject :=
  let subtotal := (pricePerNight * inject_Z numberOfNights)%Q in
  let taxes := (subtotal * taxRate)%Q in
  let totalAmount := (subtotal + taxes + serviceFee)%Q in
  <["pricePerNight" := JNum pricePerNight]>
  (<["subtotal" := JNum subtotal]>
  (<["taxes" := JNum taxes]>
  (<["serviceFee" := JNum serviceFee]>
  (<["totalAmount" := JNum totalAmount]>
  (<["currency" := JStr "USD"]> ∅))))).

(** The [paymentInfo] object literal of [bookingData]. *)
Definition paymentData (method cardNumber : option string) : JsObject :=
  <["method" := JStr (Js.orStr method "credit_card")]>
  (<["status" := JStr "pending"]>
  (<["cardLastFour" :=
       JStr (match cardNumber with
             | Some c => if Js.truthyStr cardNumber
                         then Js.sliceLast4 c else ""
             | None => ""
             end)]> ∅)).

(** [roomData.availability?.maxOccupancy || roomData.maxOccupancy || 2] *)
Definition maxOccupancyOf (roomData : Room) : Z :=
  Js.orInt (availability_maxOccupancy roomData)
    (Js.orInt (maxOccupancy roomData) 2).

(** [roomData.pricePerNight || roomData.pricing?.basePrice || 100] *)
Definition pricePerNightOf (roomData : Room) : Q :=
  Js.orNum (pricePerNight roomData)
    (Js.orNum (pricing_basePrice roomData) 100).

(** [new Booking(bookingData)] for the [bookingData] literal of
    [createBooking]. *)
Definition newBooking (env : Env) (db : list Booking) (body : CreateBody)
    (roomData : Room) : Booking :=
  let checkIn := body_checkInDate body in
  let checkOut := body_checkOutDate body in
  let numberOfNights := Js.ceilDiv (checkOut - checkIn) msPerDay in
  let pricePerNight := pricePerNightOf roomData in
  let bookingId := "BK" +:+ pretty (now env) +:+ random36 env 9 in
  mkBooking (freshId db) (Some bookingId) (body_room body)
    (Mongoose.construct BookingSchema.guestInfo
       (guestInfoData (body_guestInfo body) (body_specialRequests body)))
    checkIn checkOut (body_numberOfGuests body) numberOfNights
    (Mongoose.construct BookingSchema.pricing
       (pricingData pricePerNight numberOfNights))
    (Mongoose.construct BookingSchema.paymentInfo
       (paymentData (body_paymentMethod body) (body_cardNumber body)))
    "pending" None None "website"
    (Mongoose.construct BookingSchema.cancellation ∅)
    None None.

Definition createBooking (env : Env) (rooms : list Room)
    (db : list Booking) (body : CreateBody) : Response * list Booking :=
  if negb (validationOk body) then (Failure 400 "Validation failed", db)
  else
  match RoomModel.findById (body_room body) rooms with
  | None => (Failure 404 "Room not found", db)
  | Some roomData =>
  if negb (isAvailable roomData) then
    (Failure 400 "Room is not available", db)
  else
  let checkIn := body_checkInDate body in
  let checkOut := body_checkOutDate body in
  if checkOut <=? checkIn then
    (Failure 400 "Check-out date must be after check-in date", db)
  else if checkIn <? now env then
    (Failure 400 "Check-in date cannot be in the past", db)
  else
  let conflictingBookings :=
    List.filter
      (overlapQuery (body_room body) ["confirmed"; "checked_in"]
         checkIn checkOut) db in
  if (0 <? length conflictingBookings)%nat then
    (Failure 400 "Room is not available for the selected dates", db)
  else
  let maxOccupancy := maxOccupancyOf roomData in
  if maxOccupancy <? body_numberOfGuests body then
    (Failure 400
       ("Room can accommodate maximum " +:+ pretty maxOccupancy
        +:+ " guests"), db)
  else
  let booking := newBooking env db body roomData in
  match insert env booking db with
  | Some (saved, db') =>
      (Success 201 "Booking created successfully" saved, db')
  | None => (Failure 500 "Server error while creating booking", db)
  end
  end.

Definition updateBookingStatus (env : Env) (db : list Booking)
    (id : ObjectId) (body : StatusBody) : Response * list Booking :=
  let validStatuses :=
    ["pending"; "confirmed"; "checked_in"; "checked_out"; "cancelled";
     "no_show"] in
  match sb_status body with
  | None => (Failure 400 "Invalid booking status", db)
  | Some status =>
  if negb (bool_decide (status ∈ validStatuses)) then
    (Failure 400 "Invalid booking status", db)
  else
  match findById id db with
  | None => (Failure 404 "Booking not found", db)
  | Some booking =>
  let b1 := set_bookingStatus status booking in
  let b2 := if Js.truthyStr (sb_notes body)
            then set_notes (sb_notes body) b1 else b1 in
  let b3 := if String.eqb status "checked_in"
               && negb (bool_decide (is_Some (checkInTime b2)))
            then set_checkInTime (Some (now env)) b2 else b2 in
  let b4 := if String.eqb status "checked_out"
               && negb (bool_decide (is_Some (checkOutTime b3)))
            then set_checkOutTime (Some (now env)) b3 else b3 in
  let '(saved, db') := save env b4 db in
  (Success 200 "Booking status updated successfully" saved, db')
  end
  end.

Definition updatePaymentStatus (env : Env) (db : list Booking)
    (id : ObjectId) (body : PaymentBody) : Response * list Booking :=
  let validStatuses :=
    ["pending"; "processing"; "completed"; "failed"; "refunded"] in
  match pb_status body with
  | None => (Failure 400 "Invalid payment status", db)
  | Some status =>
  if negb (bool_decide (status ∈ validStatuses)) then
    (Failure 400 "Invalid payment status", db)
  else
  match findById id db with
  | None => (Failure 404 "Booking not found", db)
  | Some booking =>
  let assignPayment k v b :=
    set_paymentInfo
      (Mongoose.assign BookingSchema.paymentInfo k v (paymentInfo b)) b in
  (* booking.paymentInfo.status = status *)
  let b1 := assignPayment "status" (JStr status) booking in
  let b2 :=
    match pb_transactionId body with
    | Some t => if Js.truthyStr (pb_transactionId body)
                then assignPayment "transactionId" (JStr t) b1 else b1
    | None => b1
    end in
  let b3 :=
    match pb_paymentDate body with
    | Some d => assignPayment "paymentDate" (JDate d) b2
    | None => if String.eqb status "completed"
              then assignPayment "paymentDate" (JDate (now env)) b2
              else b2
    end in
  let b4 := if String.eqb status "completed"
               && String.eqb (bookingStatus b3) "pending"
            then set_bookingStatus "confirmed" b3 else b3 in
  let '(saved, db') := save env b4 db in
  (Success 200 "Payment status updated successfully" saved, db')
  end
  end.

(** The object literal assigned to [booking.cancellation]. *)
Definition cancellationData (env : Env) (body : CancelBody) : JsObject :=
  <["cancelledAt" := JDate (now env)]>
  (<["reason" := JStr (Js.orStr (cb_reason body) "Cancelled by guest")]>
  (<["refundAmount" := JNum (Js.orNum (cb_refundAmount body) 0)]>
  (<["refundStatus" :=
       JStr (match cb_refundAmount body with
             | Some r => if Qle_bool r 0 then "not_applicable"
                         else "pending"
             | None => "not_applicable"
             end)]> ∅))).

(** The four fields of that object, as the controller wrote them. *)
Definition cancellationData_view (env : Env) (body : CancelBody) :=
  let o := cancellationData env body in
  (o !! "cancelledAt", o !! "reason", o !! "refundAmount",
   o !! "refundStatus").

Definition cancelBooking (env : Env) (db : list Booking)
    (id : ObjectId) (body : CancelBody) : Response * list Booking :=
  match findById id db with
  | None => (Failure 404 "Booking not found", db)
  | Some booking =>
  if String.eqb (bookingStatus booking) "cancelled" then
    (Failure 400 "Booking is already cancelled", db)
  else if String.eqb (bookingStatus booking) "checked_out" then
    (Failure 400 "Cannot cancel completed booking", db)
  else
  let b1 := set_bookingStatus "cancelled" booking in
  let b2 :=
    set_cancellation
      (Mongoose.overwrite BookingSchema.cancellation
         (cancellationData env body)) b1 in
  let '(saved, db') := save env b2 db in
  (Success 200 "Booking cancelled successfully" saved, db')
  end.

End Controller.

(** ** routes/bookings.js: body validation in front of the controllers

    [protect], [authorize] and [checkPermission] are not modelled; the
    requests considered are those of an authorised caller. *)

Module Routes.

(** [.optional().trim().isLength({ min, max })] *)
Definition optionalLength (lo hi : nat) (v : option string) : bool :=
  match v with
  | Some s => let n := String.length (Js.trim s) in
              ((lo <=? n) && (n <=? hi))%nat
  | None => true
  end.

(** [handleValidationErrors] of middleware/errorHandler.js. *)
Definition handleValidationErrors {A : Type} (ok : bool) (db : list Booking)
    (next : A -> Response * list Booking) (sanitized : A)
    : Response * list Booking :=
  if ok then next sanitized else (Failure 400 "Validation failed", db).

(** [router.patch('/:id/status', ...)] *)
Definition patchStatus (env : Env) (db : list Booking) (id : ObjectId)
    (body : StatusBody) : Response * list Booking :=
  handleValidationErrors
    (Js.includes
       ["pending"; "confirmed"; "checked_in"; "checked_out"; "cancelled";
        "no_show"] (sb_status body)
     && optionalLength 0 500 (sb_notes body)) db
    (Controller.updateBookingStatus env db id)
    (mkStatusBody (sb_status body) (Js.trim <$> sb_notes body)).

(** [router.patch('/:id/payment', ...)] *)
Definition patchPayment (env : Env) (db : list Booking) (id : ObjectId)
    (body : PaymentBody) : Response * list Booking :=
  handleValidationErrors
    (Js.includes ["pending"; "completed"; "failed"; "refunded"]
       (pb_paymentStatus body)
     && optionalLength 5 100 (pb_transactionId body)) db
    (Controller.updatePaymentStatus env db id)
    (mkPaymentBody (pb_status body) (pb_paymentStatus body)
       (Js.trim <$> pb_transactionId body) (pb_paymentDate body)).

End Routes.

(** ** Reachable states of the booking store *)

Inductive reachable : list Booking -> Prop :=
  | reach_empty : reachable []
  | reach_create env rooms db body :
      reachable db ->
      reachable (snd (Controller.createBooking env rooms db body))
  | reach_status env db id body :
      reachable db ->
      reachable (snd (Controller.updateBookingStatus env db id body))
  | reach_payment env db id body :
      reachable db ->
      reachable (snd (Controller.updatePaymentStatus env db id body))
  | reach_cancel env db id body :
      reachable db ->
      reachable (snd (Controller.cancelBooking env db id body)).

(** ** Vocabulary of the specification *)

(** The half-open intervals [[a, b)] and [[c, d)] share a point. *)
Definition intersects (a b c d : Z) : Prop :=
  exists t, (a <= t < b) /\ (c <= t < d).

Definition disjointStays (b1 b2 : Booking) : Prop :=
  ~ intersects (checkInDate b1) (checkOutDate b1)
               (checkInDate b2) (checkOutDate b2).

(** A booking that blocks a room: confirmed or checked-in. *)
Definition blocking (b : Booking) : Prop :=
  bookingStatus b = "confirmed" \/ bookingStatus b = "checked_in".

(** Some blocking booking of [db] on room [roomRef] has a stay that
    intersects [[checkIn, checkOut)]. *)
Definition conflicting (db : list Booking) (roomRef : ObjectId)
    (checkIn checkOut : Z) : Prop :=
  exists b, b ∈ db /\ room b = roomRef /\ blocking b
            /\ intersects (checkInDate b) (checkOutDate b) checkIn checkOut.

(** The invariant of the data model: two distinct non-cancelled documents
    on the same room have disjoint stays. *)
Definition noDoubleBooking (db : list Booking) : Prop :=
  forall (i j : nat) (b1 b2 : Booking),
    db !! i = Some b1 -> db !! j = Some b2 -> i <> j ->
    room b1 = room b2 ->
    bookingStatus b1 <> "cancelled" -> bookingStatus b2 <> "cancelled" ->
    disjointStays b1 b2.

Definition wellFormedStay (b : Booking) : Prop :=
  checkInDate b < checkOutDate b.

(** What holds of every document the controller has stored. *)
Definition validDoc (b : Booking) : Prop :=
  wellFormedStay b /\ bookingStatus b ∈ BookingSchema.bookingStatusEnum.

(** An operation on an existing booking leaves the store alone or
    replaces one document by a valid one. *)
Definition updates (db db' : list Booking) : Prop :=
  db' = db
  \/ exists b saved,
       b ∈ db /\ db' = BookingModel.replace saved db
       /\ (validDoc b -> validDoc saved).

(** The stamps that go with a status: a confirmation number once
    confirmed, a check-in time once checked in, a check-out time once
    checked out. *)
Definition lifecycle (b : Booking) : Prop :=
  (bookingStatus b = "confirmed" ->
     Js.truthyStr (confirmationNumber b) = true)
  /\ (bookingStatus b = "checked_in" -> is_Some (checkInTime b))
  /\ (bookingStatus b = "checked_out" -> is_Some (checkOutTime b)).

(** What the request and the room fixed at creation. *)
Definition sameStay (b b' : Booking) : Prop :=
  _id b' = _id b /\ room b' = room b
  /\ checkInDate b' = checkInDate b /\ checkOutDate b' = checkOutDate b
  /\ numberOfGuests b' = numberOfGuests b /\ guestInfo b' = guestInfo b
  /\ pricing b' = pricing b /\ source b' = source b.

(** What is written once: a value that is set is kept. *)
Definition keepsStamps (b b' : Booking) : Prop :=
  (Js.truthyStr (bookingId b) = true -> bookingId b' = bookingId b)
  /\ (Js.truthyStr (confirmationNumber b) = true ->
      confirmationNumber b' = confirmationNumber b)
  /\ (is_Some (checkInTime b) -> checkInTime b' = checkInTime b)
  /\ (is_Some (checkOutTime b) -> checkOutTime b' = checkOutTime b).

(** The relation between a stored document and what an operation on it
    stores in its place. *)
Definition docStep (b b' : Booking) : Prop :=
  sameStay b b' /\ keepsStamps b b'
  /\ paymentInfo b' !! "paymentStatus" = paymentInfo b !! "paymentStatus"
  /\ paymentInfo b' !! "status" = paymentInfo b !! "status"
  /\ numberOfNights b' = duration b'
  /\ Js.truthyStr (bookingId b') = true
  /\ (lifecycle b -> lifecycle b').

(** The store after an operation on the booking [id]: as it was, or with
    that booking replaced by a successor. *)
Definition updatesBy (id : ObjectId) (db db' : list Booking) : Prop :=
  db' = db
  \/ exists b saved,
       BookingModel.findById id db = Some b
       /\ db' = BookingModel.replace saved db
       /\ docStep b saved.

(** A document as [createBooking] stores it. *)
Definition created (b : Booking) : Prop :=
  exists env db body roomData,
    body_checkInDate body < body_checkOutDate body
    /\ b = BookingModel.preSave env
             (Controller.newBooking env db body roomData).

(** The error messages by which the controller names its rejections. *)
Definition RoomNotAvailable : Response :=
  Failure 400 "Room is not available for the selected dates".

Definition OccupancyExceeded (maxOccupancy : Z) : Response :=
  Failure 400
    ("Room can accommodate maximum " +:+ pretty maxOccupancy +:+ " guests").

Definition AlreadyCancelled : Response :=
  Failure 400 "Booking is already cancelled".

Definition CompletedBooking : Response :=
  Failure 400 "Cannot cancel completed booking".

(** ** utils/apiHelpers.js: pagination, day counts, date ranges, ids *)

Module ApiHelpers.

Record Pagination : Type := mkPagination {
  pg_page : option Z;
  pg_limit : option Z;
  pg_skip : option Z
}.

(** [getPagination(page, limit, maxLimit)].  An argument is the value of
    [parseInt] on it, [None] for [NaN]; [Math.max], [Math.min] and the
    arithmetic propagate [NaN]. *)
Definition getPagination (page limit : option Z) (maxLimit : Z)
    : Pagination :=
  let pageNum := Z.max 1 <$> page in
  let limitNum := (fun l => Z.min maxLimit (Z.max 1 l)) <$> limit in
  let skip :=
    match pageNum, limitNum with
    | Some p, Some l => Some ((p - 1) * l)
    | _, _ => None
    end in
  mkPagination pageNum limitNum skip.

Record PaginationMeta : Type := mkPaginationMeta {
  currentPage : Z;
  totalPages : Z;
  totalItems : Z;
  itemsPerPage : Z;
  hasNextPage : bool;
  hasPrevPage : bool;
  nextPage : option Z;
  prevPage : option Z
}.

(** [getPaginationMeta(page, limit, total)], for a [limit] other than 0. *)
Definition getPaginationMeta (page limit total : Z) : PaginationMeta :=
  let totalPages := Js.ceilDiv total limit in
  let hasNextPage := page <? totalPages in
  let hasPrevPage := 1 <? page in
  mkPaginationMeta page totalPages total limit hasNextPage hasPrevPage
    (if hasNextPage then Some (page + 1) else None)
    (if hasPrevPage then Some (page - 1) else None).

(** [calculateDaysDifference(startDate, endDate)] *)
Definition calculateDaysDifference (startDate endDate : Z) : Z :=
  let diffTime := Z.abs (endDate - startDate) in
  Js.ceilDiv diffTime msPerDay.

Inductive DateRangeResult : Type :=
  | RangeValid (days : Z)
  | RangeInvalid (message : string).

(** [validateDateRange(startDate, endDate, minDays, maxDays)]; a date is
    [None] when [new Date] cannot parse it. *)
Definition validateDateRange (env : Env) (startDate endDate : option Z)
    (minDays maxDays : Z) : DateRangeResult :=
  match startDate, endDate with
  | Some start, Some end_ =>
      if start <? now env then
        RangeInvalid "Check-in date must be in the future"
      else if end_ <=? start then
        RangeInvalid "Check-out date must be after check-in date"
      else
        let days := calculateDaysDifference start end_ in
        if days <? minDays then
          RangeInvalid ("Minimum stay is " +:+ pretty minDays +:+ " day(s)")
        else if maxDays <? days then
          RangeInvalid ("Maximum stay is " +:+ pretty maxDays +:+ " days")
        else RangeValid days
  | _, _ => RangeInvalid "Invalid date format"
  end.

(** [s.charAt(i)]: the empty string out of range. *)
Definition charAt (s : string) (i : nat) : string :=
  match String.get i s with
  | Some c => String c EmptyString
  | None => EmptyString
  end.

Definition idChars : string := "ABCDEFGHIJKLMNOPQRSTUVWXYZ0123456789".

(** The loop of [generateUniqueId]; [draw i] is
    [Math.floor(Math.random() * chars.length)] at iteration [i]. *)
Fixpoint generateUniqueId_loop (draw : nat -> nat) (i n : nat)
    (result : string) : string :=
  match n with
  | O => result
  | S n' =>
      generateUniqueId_loop draw (S i) n'
        (result +:+ charAt idChars (draw i))
  end.

Definition generateUniqueId (draw : nat -> nat) (prefix : string)
    (len : nat) : string :=
  generateUniqueId_loop draw 0 len prefix.

Fixpoint repeatChar (n : nat) (c : ascii) : string :=
  match n with
  | O => EmptyString
  | S n' => String c (repeatChar n' c)
  end.

(** [s.padStart(n, c)] *)
Definition padStart (n : nat) (c : ascii) (s : string) : string :=
  repeatChar (n - String.length s) c +:+ s.

(** [s.slice(-n)] *)
Definition sliceLast (n : nat) (s : string) : string :=
  String.substring (String.length s - n) n s.

(** [generateConfirmationNumber()]; [year], [month] and [day] are
    [getFullYear()], [getMonth()] and [getDate()] of the clock, [rnd] is
    [Math.floor(Math.random() * 10000)]. *)
Definition generateConfirmationNumber (year month day rnd : Z) : string :=
  "LH" +:+ sliceLast 2 (pretty year)
       +:+ padStart 2 "0" (pretty (month + 1))
       +:+ padStart 2 "0" (pretty day)
       +:+ padStart 4 "0" (pretty rnd).

End ApiHelpers.

(** ** controllers/bookingController.js: the read handlers *)

Module BookingQueries.

Inductive FetchResponse : Type :=
  | Fetched (data : Booking)
  | FetchFailure (code : Z) (message : string).

Definition getBooking (db : list Booking) (id : ObjectId) : FetchResponse :=
  match BookingModel.findById id db with
  | Some booking => Fetched booking
  | None => FetchFailure 404 "Booking not found"
  end.

(** [Booking.findOne({ confirmationNumber })] *)
Fixpoint findByConfirmation (c : string) (db : list Booking)
    : option Booking :=
  match db with
  | [] => None
  | b :: rest =>
      if bool_decide (confirmationNumber b = Some c) then Some b
      else findByConfirmation c rest
  end.

Definition getBookingByConfirmation (db : list Booking) (c : string)
    : FetchResponse :=
  match findByConfirmation c db with
  | Some booking => Fetched booking
  | None =>
      FetchFailure 404 "Booking not found with this confirmation number"
  end.

(** Query string of [GET /api/bookings].  [page] and [limit] are the
    positive integers that [validateBookingQuery] lets through, already
    defaulted to 1 and 20; [sort] defaults to ['-createdAt']. *)
Record BookingsQuery : Type := mkBookingsQuery {
  q_status : option string;
  q_paymentStatus : option string;
  q_checkInDate : option Z;
  q_checkOutDate : option Z;
  q_guestEmail : option string;
  q_roomType : option string;
  q_page : positive;
  q_limit : positive;
  q_sort : string
}.

Record BookingsPage : Type := mkBookingsPage {
  bp_count : nat;
  bp_total : nat;
  bp_page : Z;
  bp_limit : Z;
  bp_pages : Z;
  bp_data : list Booking
}.

Section GetBookings.

(** The database engine and the room collection, as far as the handler
    relies on them: the case-insensitive [$regex] match of a pattern on a
    string, the order [sort] puts documents in, and the [type] of the room
    with a given [_id], if that room exists. *)
Variable regexTest : string -> string -> bool.
Variable sortBy : string -> list Booking -> list Booking.
Variable roomTypeOf : ObjectId -> option string.

(** The [filter] object, as a predicate on stored documents. *)
Definition bookingsFilter (q : BookingsQuery) (b : Booking) : bool :=
  (if Js.truthyStr (q_status q)
   then bool_decide (Some (bookingStatus b) = q_status q) else true)
  && (match q_paymentStatus q with
      | Some p =>
          if Js.truthyStr (q_paymentStatus q) then
            match paymentInfo b !! "status" with
            | Some (JStr s) => String.eqb s p
            | _ => false
            end
          else true
      | None => true
      end)
  && (match q_guestEmail q with
      | Some pat =>
          if Js.truthyStr (q_guestEmail q) then
            match guestInfo b !! "email" with
            | Some (JStr e) => regexTest pat e
            | _ => false
            end
          else true
      | None => true
      end)
  && (match q_checkInDate q with
      | Some d => d <=? checkInDate b
      | None => true
      end)
  && (match q_checkOutDate q with
      | Some d => checkOutDate b <=? d
      | None => true
      end).

Definition getBookings (db : list Booking) (q : BookingsQuery)
    : BookingsPage :=
  let pageNum := Z.pos (q_page q) in
  let limitNum := Z.pos (q_limit q) in
  let skip := (pageNum - 1) * limitNum in
  let bookings :=
    take (Z.to_nat limitNum)
      (drop (Z.to_nat skip)
         (sortBy (q_sort q) (List.filter (bookingsFilter q) db))) in
  let filteredBookings :=
    match q_roomType q with
    | Some ty =>
        if Js.truthyStr (q_roomType q)
        then List.filter
               (fun b => bool_decide (roomTypeOf (room b) = Some ty))
               bookings
        else bookings
    | None => bookings
    end in
  let total := length (List.filter (bookingsFilter q) db) in
  mkBookingsPage (length filteredBookings) total pageNum limitNum
    (Js.ceilDiv (Z.of_nat total) limitNum) filteredBookings.

End GetBookings.

End BookingQueries.

(** ** routes/bookings.js: the confirmation lookup and the cancel route *)

Module BookingRoutes.

(** [router.get('/confirmation/:confirmationNumber', ...)] *)
Definition getByConfirmation (db : list Booking) (c : string)
    : BookingQueries.FetchResponse :=
  let n := String.length c in
  if ((6 <=? n) && (n <=? 20))%nat
  then BookingQueries.getBookingByConfirmation db c
  else BookingQueries.FetchFailure 400 "Validation failed".

(** Body of [PATCH /api/bookings/:id/cancel]. *)
Record CancelRequest : Type := mkCancelRequest {
  cr_reason : option string;
  cr_refundAmount : option Q;
  cr_refundMethod : option string;
  cr_notes : option string
}.

(** [router.patch('/:id/cancel', ...)] *)
Definition patchCancel (env : Env) (db : list Booking) (id : ObjectId)
    (body : CancelRequest) : Response * list Booking :=
  let reason := Js.trim (default "" (cr_reason body)) in
  Routes.handleValidationErrors
    (((5 <=? String.length reason) && (String.length reason <=? 500))%nat
     && match cr_refundAmount body with
        | Some r => Qle_bool 0 r
        | None => true
        end
     && match cr_refundMethod body with
        | Some m =>
            bool_decide
              (m ∈ ["original_payment"; "bank_transfer"; "cash"; "credit"])
        | None => true
        end
     && Routes.optionalLength 0 500 (cr_notes body)) db
    (Controller.cancelBooking env db id)
    (mkCancelBody (Some reason) (cr_refundAmount body)).

End BookingRoutes.

(** ** controllers/roomController.js: fetching and deleting a room *)

Module RoomController.

Inductive RoomResponse : Type :=
  | RoomFetched (data : Room)
  | RoomDone (code : Z) (message : string)
  | RoomFailure (code : Z) (message : string).

Definition getRoom (rooms : list Room) (id : ObjectId) : RoomResponse :=
  match RoomModel.findById id rooms with
  | Some r => RoomFetched r
  | None => RoomFailure 404 "Room not found"
  end.

(** [Room.findByIdAndDelete(id)] *)
Fixpoint findByIdAndDelete (id : ObjectId) (rooms : list Room)
    : list Room :=
  match rooms with
  | [] => []
  | r :: rest =>
      if Nat.eqb (roomId r) id then rest
      else r :: findByIdAndDelete id rest
  end.

(** The [countDocuments] filter of [deleteRoom]. *)
Definition activeBooking (env : Env) (id : ObjectId) (b : Booking) : bool :=
  Nat.eqb (room b) id
  && bool_decide (bookingStatus b ∈ ["confirmed"; "checked_in"])
  && (now env <=? checkOutDate b).

Definition deleteRoom (env : Env) (rooms : list Room) (db : list Booking)
    (id : ObjectId) : RoomResponse * list Room :=
  match RoomModel.findById id rooms with
  | None => (RoomFailure 404 "Room not found", rooms)
  | Some _ =>
      let activeBookings := length (List.filter (activeBooking env id) db) in
      if (0 <? activeBookings)%nat then
        (RoomFailure 400 "Cannot delete room with active bookings", rooms)
      else
        (RoomDone 200 "Room deleted successfully",
         findByIdAndDelete id rooms)
  end.

End RoomController.

(** ** Sample data: one room, stays in August 2025 *)

Module Sample.

Definition day (n : Z) : Z := n * msPerDay.

(** 2025-08-[d]T00:00:00Z; 2025-08-01 is day 20301 of the epoch. *)
Definition aug (d : Z) : Z := day (20300 + d).

Definition env : Env := mkEnv (day 20270) (fun _ => "X7K2Q").

(** A later request: the clock has advanced, the random draw differs. *)
Definition env2 : Env := mkEnv (day 20271) (fun _ => "M3P9Z").

Definition roomA : Room :=
  mkRoom 1%nat "Deluxe" true (Some 100%Q) None (Some 2) None.

(** A second room, at 99.99 a night. *)
Definition roomB : Room :=
  mkRoom 2%nat "Standard" true (Some (9999 # 100)%Q) None (Some 2) None.

(** A third room, taken out of service. *)
Definition roomC : Room :=
  mkRoom 3%nat "Closed" false (Some 80%Q) None (Some 2) None.

Definition rooms : list Room := [roomA; roomB; roomC].

Definition guest : gmap string string :=
  <["firstName" := "John"]> (<["lastName" := "Doe"]>
  (<["email" := "john.doe@example.com"]>
  (<["phone" := "+12345678901"]> ∅))).

Definition stay (ci co guests : Z) : CreateBody :=
  mkCreateBody true 1%nat ci co guests guest (Some "credit_card") None None.

(** One pending booking of room 1 for 2025-08-01..2025-08-03. *)
Definition db1 : list Booking :=
  snd (Controller.createBooking env rooms [] (stay (aug 1) (aug 3) 2)).

(** The same booking, confirmed. *)
Definition dbConfirmed : list Booking :=
  snd (Controller.updateBookingStatus env db1 1%nat
         (mkStatusBody (Some "confirmed") None)).

(** The same booking, checked in. *)
Definition dbCheckedIn : list Booking :=
  snd (Controller.updateBookingStatus env dbConfirmed 1%nat
         (mkStatusBody (Some "checked_in") None)).

(** The same booking, checked out. *)
Definition dbCheckedOut : list Booking :=
  snd (Controller.updateBookingStatus env dbCheckedIn 1%nat
         (mkStatusBody (Some "checked_out") None)).

Definition cancelRequest : CancelBody :=
  mkCancelBody (Some "Change of plans") (Some 50%Q).

(** The pending booking, cancelled with a refund of 50. *)
Definition dbCancelled : list Booking :=
  snd (Controller.cancelBooking env db1 1%nat cancelRequest).

(** Two pending bookings of room 1 for the same nights. *)
Definition dbTwice : list Booking :=
  snd (Controller.createBooking env2 rooms db1 (stay (aug 1) (aug 3) 2)).

(** Both of them confirmed. *)
Definition dbTwiceConfirmed : list Booking :=
  snd (Controller.updateBookingStatus env2
         (snd (Controller.updateBookingStatus env dbTwice 1%nat
                 (mkStatusBody (Some "confirmed") None)))
         2%nat (mkStatusBody (Some "confirmed") None)).

(** Five guests for 2025-08-02..2025-08-04 in room 1, which sleeps 2. *)
Definition crowded : CreateBody := stay (aug 2) (aug 4) 5.

(** The document of the first request, as stored. *)
Definition pendingBooking : Booking :=
  BookingModel.preSave env
    (Controller.newBooking env [] (stay (aug 1) (aug 3) 2) roomA).

(** One night in room 2. *)
Definition oneNightB : CreateBody :=
  mkCreateBody true 2%nat (aug 10) (aug 11) 2 guest (Some "credit_card")
    None None.

End Sample.

(** * Properties *)

(** ** The collection *)

Section Collection.
Import BookingModel.

Lemma findById_Some id db b :
  findById id db = Some b -> _id b = id /\ b ∈ db.
Proof.
  induction db as [|x db IH]; simpl; [discriminate|].
  destruct (Nat.eqb (_id x) id) eqn:E.
  - intros [= <-]. apply Nat.eqb_eq in E. split; [done | left].
  - intros H. destruct (IH H) as [? ?]. split; [done | by right].
Qed.

Lemma findById_replace id db b d :
  findById id db = Some b -> _id d = id ->
  findById id (replace d db) = Some d.
Proof.
  intros H Hd. induction db as [|x db IH]; simpl in *; [discriminate|].
  rewrite Hd. destruct (Nat.eqb (_id x) id) eqn:E; simpl.
  - by rewrite Hd, Nat.eqb_refl.
  - rewrite E. by apply IH.
Qed.

Lemma Forall_replace (P : Booking -> Prop) d db :
  Forall P db -> P d -> Forall P (replace d db).
Proof.
  intros H Hd. induction H as [|x db Hx H IH]; simpl; [constructor|].
  destruct (Nat.eqb (_id x) (_id d)); constructor; auto.
Qed.

Lemma filter_nonempty {A} (f : A -> bool) (l : list A) :
  (0 <? length (List.filter f l))%nat = existsb f l.
Proof.
  induction l as [|x l IH]; simpl; [done|].
  destruct (f x); simpl; [done | apply IH].
Qed.

Lemma filter_empty {A} (f : A -> bool) (l : list A) :
  Nat.eqb (length (List.filter f l)) 0 = negb (existsb f l).
Proof.
  induction l as [|x l IH]; simpl; [done|].
  destruct (f x); simpl; [done | apply IH].
Qed.

(** The pre-save hook touches [bookingId], [confirmationNumber] and
    [numberOfNights] only. *)
Lemma preSave_fields env b :
  let s := preSave env b in
  _id s = _id b /\ room s = room b /\
  checkInDate s = checkInDate b /\ checkOutDate s = checkOutDate b /\
  bookingStatus s = bookingStatus b /\
  pricing s = pricing b /\ paymentInfo s = paymentInfo b /\
  cancellation s = cancellation b /\ notes s = notes b /\
  checkInTime s = checkInTime b /\ checkOutTime s = checkOutTime b.
Proof.
  unfold preSave.
  destruct (Js.truthyStr (bookingId b)); simpl;
    match goal with |- context [if ?c then _ else _] => destruct c end;
    simpl; repeat split.
Qed.

End Collection.

Ltac presave env b :=
  let H := fresh "Hsave" in
  pose proof (preSave_fields env b) as H; cbv zeta in H;
  destruct H as (?H & ?H & ?H & ?H & ?H & ?H & ?H & ?H & ?H & ?H & ?H).

(** ** Cancellation *)

(** C7. Cancelling a booking whose status is [cancelled] fails with
    "Booking is already cancelled", cancelling one whose status is
    [checked_out] fails with "Cannot cancel completed booking"; in both
    cases the store, and so every field of the booking, is left as it
    was. *)
Theorem cancelBooking_terminal_rejected env db id body b :
  BookingModel.findById id db = Some b ->
  (bookingStatus b = "cancelled" ->
     Controller.cancelBooking env db id body = (AlreadyCancelled, db)
     /\ BookingModel.findById id
          (snd (Controller.cancelBooking env db id body)) = Some b)
  /\ (bookingStatus b = "checked_out" ->
     Controller.cancelBooking env db id body = (CompletedBooking, db)
     /\ BookingModel.findById id
          (snd (Controller.cancelBooking env db id body)) = Some b).
Proof.
  intros Hfind. unfold Controller.cancelBooking. rewrite Hfind.
  split; intros ->; simpl; auto.
Qed.

(** ** Status updates *)

(** C10. [updateBookingStatus] accepts each of the six statuses whatever
    the current status of the booking is: it answers 200, and the stored
    booking carries the requested status. *)
Theorem updateBookingStatus_any_transition env db id b status notes :
  BookingModel.findById id db = Some b ->
  status ∈ ["pending"; "confirmed"; "checked_in"; "checked_out";
            "cancelled"; "no_show"] ->
  exists saved,
    Controller.updateBookingStatus env db id
      (mkStatusBody (Some status) notes)
    = (Success 200 "Booking status updated successfully" saved,
       BookingModel.replace saved db)
    /\ BookingModel.findById id (BookingModel.replace saved db) = Some saved
    /\ bookingStatus saved = status.
Proof.
  intros Hfind Hin. unfold Controller.updateBookingStatus. simpl.
  rewrite bool_decide_eq_true_2 by exact Hin. simpl. rewrite Hfind.
  unfold BookingModel.save.
  match goal with
  | |- context [BookingModel.preSave env ?x] => set (b4 := x)
  end.
  exists (BookingModel.preSave env b4). presave env b4.
  destruct (findById_Some _ _ _ Hfind) as [Hid _].
  assert (Hb4 : _id b4 = id /\ bookingStatus b4 = status).
  { subst b4. repeat match goal with
    | |- context [if ?c then _ else _] => destruct c end; simpl; auto. }
  destruct Hb4 as [Hid4 Hst4].
  split; [reflexivity|]. split.
  - eapply findById_replace; [exact Hfind | congruence].
  - congruence.
Qed.

Lemma cancelBooking_terminal_rejected_witness :
  Controller.cancelBooking Sample.env Sample.dbCancelled 1%nat
    Sample.cancelRequest = (AlreadyCancelled, Sample.dbCancelled)
  /\ Controller.cancelBooking Sample.env Sample.dbCheckedOut 1%nat
       Sample.cancelRequest = (CompletedBooking, Sample.dbCheckedOut).
Proof.
  split.
  - edestruct (cancelBooking_terminal_rejected Sample.env Sample.dbCancelled
                 1%nat Sample.cancelRequest) as [H _];
      [vm_compute; reflexivity|].
    apply H. vm_compute. reflexivity.
  - edestruct (cancelBooking_terminal_rejected Sample.env
                 Sample.dbCheckedOut 1%nat Sample.cancelRequest) as [_ H];
      [vm_compute; reflexivity|].
    apply H. vm_compute. reflexivity.
Defined.

Lemma updateBookingStatus_any_transition_witness :
  exists saved,
    Controller.updateBookingStatus Sample.env Sample.dbCancelled 1%nat
      (mkStatusBody (Some "pending") None)
    = (Success 200 "Booking status updated successfully" saved,
       BookingModel.replace saved Sample.dbCancelled)
    /\ BookingModel.findById 1%nat
         (BookingModel.replace saved Sample.dbCancelled) = Some saved
    /\ bookingStatus saved = "pending".
Proof.
  eapply updateBookingStatus_any_transition.
  - vm_compute. reflexivity.
  - apply (bool_decide_unpack _). vm_compute. exact I.
Defined.

(** ** Payment updates *)

Lemma assign_undeclared sch k v (doc : JsObject) :
  List.find (fun p => String.eqb (Mongoose.pathName p) k) sch = None ->
  Mongoose.assign sch k v doc = doc.
Proof. unfold Mongoose.assign. by intros ->. Qed.

Lemma assign_lookup_ne sch k v (doc : JsObject) k' :
  k <> k' -> Mongoose.assign sch k v doc !! k' = doc !! k'.
Proof.
  intros Hne. unfold Mongoose.assign.
  destruct (List.find _ sch); [by rewrite lookup_insert_ne | done].
Qed.

(** What [updatePaymentStatus] does to an existing booking when the body
    key [status] holds one of the five values the controller accepts. *)
Lemma updatePaymentStatus_effect env db id b body status :
  BookingModel.findById id db = Some b ->
  pb_status body = Some status ->
  status ∈ ["pending"; "processing"; "completed"; "failed"; "refunded"] ->
  exists saved,
    Controller.updatePaymentStatus env db id body
    = (Success 200 "Payment status updated successfully" saved,
       BookingModel.replace saved db)
    /\ BookingModel.findById id (BookingModel.replace saved db) = Some saved
    /\ paymentInfo saved !! "paymentStatus" = paymentInfo b !! "paymentStatus"
    /\ paymentInfo saved !! "status" = paymentInfo b !! "status"
    /\ bookingStatus saved =
         if String.eqb status "completed"
            && String.eqb (bookingStatus b) "pending"
         then "confirmed" else bookingStatus b.
Proof.
  intros Hfind Hst Hin. unfold Controller.updatePaymentStatus.
  rewrite Hst. rewrite bool_decide_eq_true_2 by exact Hin. simpl.
  rewrite Hfind. unfold BookingModel.save.
  rewrite (assign_undeclared BookingSchema.paymentInfo "status")
    by reflexivity.
  match goal with
  | |- context [BookingModel.preSave env ?x] => set (b4 := x)
  end.
  exists (BookingModel.preSave env b4). presave env b4.
  destruct (findById_Some _ _ _ Hfind) as [Hid _].
  assert (Hb4 : _id b4 = id
    /\ paymentInfo b4 !! "paymentStatus" = paymentInfo b !! "paymentStatus"
    /\ paymentInfo b4 !! "status" = paymentInfo b !! "status"
    /\ bookingStatus b4 =
         if String.eqb status "completed"
            && String.eqb (bookingStatus b) "pending"
         then "confirmed" else bookingStatus b).
  { subst b4.
    destruct (pb_transactionId body) as [t|]; [destruct (Js.truthyStr _)|];
      destruct (pb_paymentDate body) as [d|];
      destruct (String.eqb status "completed");
      simpl; destruct (String.eqb (bookingStatus b) "pending"); simpl;
      rewrite ?assign_lookup_ne by discriminate; auto. }
  destruct Hb4 as (Hid4 & Hps & Hs & Hbs).
  split; [reflexivity|]. split.
  - eapply findById_replace; [exact Hfind | congruence].
  - repeat split; congruence.
Qed.

(** C6. Marking the payment of an existing booking [completed] promotes
    a [pending] booking to [confirmed] and leaves a [confirmed] booking
    [confirmed]. *)
Theorem payment_completed_confirms env db id b body :
  BookingModel.findById id db = Some b ->
  pb_status body = Some "completed" ->
  exists saved,
    Controller.updatePaymentStatus env db id body
    = (Success 200 "Payment status updated successfully" saved,
       BookingModel.replace saved db)
    /\ BookingModel.findById id (BookingModel.replace saved db) = Some saved
    /\ (bookingStatus b = "pending" -> bookingStatus saved = "confirmed")
    /\ (bookingStatus b = "confirmed" -> bookingStatus saved = "confirmed").
Proof.
  intros Hfind Hst.
  destruct (updatePaymentStatus_effect env db id b body "completed"
              Hfind Hst) as (saved & Heq & Hf & _ & _ & Hbs).
  { set_solver. }
  exists saved. split; [exact Heq|]. split; [exact Hf|].
  split; intros Hb; rewrite Hbs, Hb; reflexivity.
Qed.

Lemma payment_completed_confirms_witness :
  exists saved,
    Controller.updatePaymentStatus Sample.env Sample.db1 1%nat
      (mkPaymentBody (Some "completed") None None None)
    = (Success 200 "Payment status updated successfully" saved,
       BookingModel.replace saved Sample.db1)
    /\ bookingStatus saved = "confirmed".
Proof.
  pose proof (fun b Hfind =>
    payment_completed_confirms Sample.env Sample.db1 1%nat b
      (mkPaymentBody (Some "completed") None None None) Hfind eq_refl) as H.
  edestruct H as (saved & Heq & _ & Hpending & _).
  - vm_compute. reflexivity.
  - exists saved. split; [exact Heq|].
    apply Hpending. vm_compute. reflexivity.
Defined.

(** Whatever the non-completed payment status, and whatever the booking
    status other than [pending], the booking status is not touched. *)
Lemma payment_update_keeps_status env db id b body status :
  BookingModel.findById id db = Some b ->
  pb_status body = Some status ->
  status ∈ ["pending"; "processing"; "completed"; "failed"; "refunded"] ->
  status <> "completed" \/ bookingStatus b <> "pending" ->
  exists saved,
    fst (Controller.updatePaymentStatus env db id body)
    = Success 200 "Payment status updated successfully" saved
    /\ bookingStatus saved = bookingStatus b.
Proof.
  intros Hfind Hst Hin Hor.
  destruct (updatePaymentStatus_effect env db id b body status
              Hfind Hst Hin) as (saved & Heq & _ & _ & _ & Hbs).
  exists saved. rewrite Heq. split; [done|]. rewrite Hbs.
  destruct Hor as [H|H]; apply String.eqb_neq in H; rewrite H;
    [done | by rewrite andb_false_r].
Qed.

(** C5, at a pending booking.  The body carries [completed] under both
    keys and a transaction id: the route accepts it and the controller
    answers 200, the transaction id is stored, and the stored payment
    status is still [pending].  With the status under the validated key
    [paymentStatus] alone the controller answers 400. *)
Theorem updatePayment_status_not_stored :
  (exists saved,
     fst (Routes.patchPayment Sample.env Sample.db1 1%nat
            (mkPaymentBody (Some "completed") (Some "completed")
               (Some "TXN-0001") None))
     = Success 200 "Payment status updated successfully" saved
     /\ BookingModel.findById 1%nat
          (snd (Routes.patchPayment Sample.env Sample.db1 1%nat
                  (mkPaymentBody (Some "completed") (Some "completed")
                     (Some "TXN-0001") None))) = Some saved
     /\ paymentInfo saved !! "transactionId" = Some (JStr "TXN-0001")
     /\ paymentInfo saved !! "paymentStatus" = Some (JStr "pending")
     /\ paymentInfo saved !! "status" = None)
  /\ Routes.patchPayment Sample.env Sample.db1 1%nat
       (mkPaymentBody None (Some "completed") None None)
     = (Failure 400 "Invalid payment status", Sample.db1).
Proof.
  split.
  - eexists. split; [vm_compute; reflexivity|].
    repeat split; vm_compute; reflexivity.
  - vm_compute. reflexivity.
Qed.

(** No request makes [updatePaymentStatus] change the stored payment
    status of a booking. *)
Lemma updatePaymentStatus_keeps_paymentStatus env db id b body :
  BookingModel.findById id db = Some b ->
  exists b',
    BookingModel.findById id
      (snd (Controller.updatePaymentStatus env db id body)) = Some b'
    /\ paymentInfo b' !! "paymentStatus" = paymentInfo b !! "paymentStatus".
Proof.
  intros Hfind.
  destruct (pb_status body) as [status|] eqn:Hst.
  - destruct (decide (status ∈ ["pending"; "processing"; "completed";
                                "failed"; "refunded"])) as [Hin|Hout].
    + destruct (updatePaymentStatus_effect env db id b body status
                  Hfind Hst Hin) as (saved & Heq & Hf & Hps & _).
      exists saved. by rewrite Heq.
    + exists b. unfold Controller.updatePaymentStatus. rewrite Hst.
      by rewrite bool_decide_eq_false_2.
  - exists b. unfold Controller.updatePaymentStatus. by rewrite Hst.
Qed.

(** ** Cancelling a live booking *)

(** The object the controller assigns holds the timestamp, the reason,
    the refund amount and the derived refund status. *)
Lemma cancellationData_holds env body :
  Controller.cancellationData_view env body
  = (Some (JDate (now env)),
     Some (JStr (Js.orStr (cb_reason body) "Cancelled by guest")),
     Some (JNum (Js.orNum (cb_refundAmount body) 0)),
     Some (JStr (match cb_refundAmount body with
                 | Some r => if Qle_bool r 0 then "not_applicable"
                             else "pending"
                 | None => "not_applicable"
                 end))).
Proof. reflexivity. Qed.

(** What is stored of it: the declared paths [cancelledAt] and
    [refundAmount]. *)
Lemma cancellation_stored env body :
  Mongoose.overwrite BookingSchema.cancellation
    (Controller.cancellationData env body)
  = <["cancelledAt" := JDate (now env)]>
      (<["refundAmount" := JNum (Js.orNum (cb_refundAmount body) 0)]> ∅).
Proof. reflexivity. Qed.

(** What [cancelBooking] does to a booking that is neither cancelled nor
    checked out. *)
Lemma cancelBooking_effect env db id b body :
  BookingModel.findById id db = Some b ->
  bookingStatus b <> "cancelled" ->
  bookingStatus b <> "checked_out" ->
  exists saved,
    Controller.cancelBooking env db id body
    = (Success 200 "Booking cancelled successfully" saved,
       BookingModel.replace saved db)
    /\ BookingModel.findById id (BookingModel.replace saved db) = Some saved
    /\ bookingStatus saved = "cancelled"
    /\ cancellation saved !! "cancelledAt" = Some (JDate (now env))
    /\ cancellation saved !! "refundAmount"
       = Some (JNum (Js.orNum (cb_refundAmount body) 0))
    /\ cancellation saved !! "reason" = None
    /\ cancellation saved !! "cancellationReason" = None
    /\ cancellation saved !! "refundStatus" = None.
Proof.
  intros Hfind Hc Hco. unfold Controller.cancelBooking. rewrite Hfind.
  apply String.eqb_neq in Hc, Hco. rewrite Hc, Hco.
  unfold BookingModel.save.
  match goal with
  | |- context [BookingModel.preSave env ?x] => set (b2 := x)
  end.
  exists (BookingModel.preSave env b2). presave env b2.
  destruct (findById_Some _ _ _ Hfind) as [Hid _].
  split; [reflexivity|]. split.
  - eapply findById_replace; [exact Hfind |]. subst b2. simpl in *.
    congruence.
  - repeat match goal with
           | H : cancellation _ = _ |- _ => rewrite H
           | H : bookingStatus _ = _ |- _ => rewrite H
           end.
    subst b2. unfold set_cancellation, set_bookingStatus.
    cbn [cancellation bookingStatus].
    rewrite cancellation_stored. repeat split.
Qed.

(** C8, at a pending booking cancelled with the reason "Change of plans"
    and a refund of 50: the status becomes [cancelled] and the stored
    cancellation sub-record is exactly the timestamp and the refund
    amount; neither the reason nor a refund status is stored. *)
Theorem cancelBooking_reason_not_stored :
  exists saved,
    fst (Controller.cancelBooking Sample.env Sample.db1 1%nat
           (mkCancelBody (Some "Change of plans") (Some 50%Q)))
    = Success 200 "Booking cancelled successfully" saved
    /\ BookingModel.findById 1%nat
         (snd (Controller.cancelBooking Sample.env Sample.db1 1%nat
                 (mkCancelBody (Some "Change of plans") (Some 50%Q))))
       = Some saved
    /\ bookingStatus saved = "cancelled"
    /\ cancellation saved
       = <["cancelledAt" := JDate (now Sample.env)]>
           (<["refundAmount" := JNum 50]> ∅)
    /\ cancellation saved !! "reason" = None
    /\ cancellation saved !! "cancellationReason" = None
    /\ cancellation saved !! "refundStatus" = None.
Proof.
  eexists. split; [vm_compute; reflexivity|].
  repeat split; vm_compute; reflexivity.
Qed.

(** ** Creating a booking *)

Lemma intersects_iff a b c d :
  a < b -> c < d -> (intersects a b c d <-> a < d /\ c < b).
Proof.
  intros Hab Hcd. split.
  - intros (t & ? & ?). lia.
  - intros [? ?]. exists (Z.max a c). lia.
Qed.

Lemma overlapQuery_true roomRef ci co b :
  BookingModel.overlapQuery roomRef ["confirmed"; "checked_in"] ci co b
  = true
  <-> room b = roomRef /\ blocking b
      /\ checkInDate b < co /\ ci < checkOutDate b.
Proof.
  unfold BookingModel.overlapQuery, blocking.
  rewrite !andb_true_iff, Nat.eqb_eq, bool_decide_eq_true, !Z.ltb_lt.
  rewrite !elem_of_cons, elem_of_nil. tauto.
Qed.

Lemma overlap_exists_iff db roomRef ci co :
  Forall wellFormedStay db -> ci < co ->
  existsb (BookingModel.overlapQuery roomRef ["confirmed"; "checked_in"]
             ci co) db = true
  <-> conflicting db roomRef ci co.
Proof.
  intros Hwf Hlt. rewrite existsb_exists. unfold conflicting.
  split; intros (b & Hin & H).
  - apply overlapQuery_true in H as (Hr & Hb & H1 & H2).
    exists b. apply list_elem_of_In in Hin.
    rewrite Forall_forall in Hwf. specialize (Hwf b Hin).
    repeat split; try done. apply intersects_iff; auto.
  - destruct H as (Hr & Hb & Hi).
    rewrite Forall_forall in Hwf. specialize (Hwf b Hin).
    exists b. split; [by apply list_elem_of_In|].
    apply overlapQuery_true.
    pose proof (proj1 (intersects_iff _ _ _ _ Hwf Hlt) Hi). tauto.
Qed.

Section CreateBooking.
Import Controller.

Variables (env : Env) (rooms : list Room) (db : list Booking).
Variables (body : CreateBody) (roomData : Room).

Hypothesis Hvalid : validationOk body = true.
Hypothesis Hroom : RoomModel.findById (body_room body) rooms = Some roomData.
Hypothesis Havailable : isAvailable roomData = true.
Hypothesis Hrange : body_checkInDate body < body_checkOutDate body.
Hypothesis Hfuture : now env <= body_checkInDate body.

(** Past the room and date guards, the overlap query decides first, the
    occupancy check second. *)
Lemma createBooking_guarded :
  createBooking env rooms db body =
    if existsb (BookingModel.overlapQuery (body_room body)
                  ["confirmed"; "checked_in"]
                  (body_checkInDate body) (body_checkOutDate body)) db
    then (RoomNotAvailable, db)
    else if maxOccupancyOf roomData <? body_numberOfGuests body
    then (OccupancyExceeded (maxOccupancyOf roomData), db)
    else
      match BookingModel.insert env (newBooking env db body roomData) db
      with
      | Some (saved, db') =>
          (Success 201 "Booking created successfully" saved, db')
      | None => (Failure 500 "Server error while creating booking", db)
      end.
Proof.
  unfold createBooking. rewrite Hvalid, Hroom, Havailable. simpl.
  rewrite (proj2 (Z.leb_gt _ _)) by lia.
  rewrite (proj2 (Z.ltb_ge _ _)) by lia.
  rewrite filter_nonempty.
  destruct (existsb _ db); [reflexivity|].
  destruct (_ <? body_numberOfGuests body); reflexivity.
Qed.

End CreateBooking.

(** Inversion of a successful [createBooking]. *)
Lemma createBooking_Success_inv env rooms db body code msg saved db' :
  Controller.createBooking env rooms db body
  = (Success code msg saved, db') ->
  exists roomData,
    RoomModel.findById (body_room body) rooms = Some roomData
    /\ body_checkInDate body < body_checkOutDate body
    /\ now env <= body_checkInDate body
    /\ existsb (BookingModel.overlapQuery (body_room body)
                  ["confirmed"; "checked_in"]
                  (body_checkInDate body) (body_checkOutDate body)) db
       = false
    /\ body_numberOfGuests body <= Controller.maxOccupancyOf roomData
    /\ saved = BookingModel.preSave env
                 (Controller.newBooking env db body roomData)
    /\ Forall (fun x => bookingId x <> bookingId saved) db
    /\ db' = (db ++ [saved])%list.
Proof.
  unfold Controller.createBooking.
  destruct (validationOk body); simpl; [|discriminate].
  destruct (RoomModel.findById _ rooms) as [r|]; [|discriminate].
  destruct (isAvailable r); simpl; [|discriminate].
  destruct (_ <=? _) eqn:E1; [discriminate|].
  destruct (_ <? now env) eqn:E2; [discriminate|].
  rewrite filter_nonempty.
  destruct (existsb _ db) eqn:E3; [discriminate|].
  destruct (_ <? body_numberOfGuests body) eqn:E4; [discriminate|].
  unfold BookingModel.insert. cbv zeta.
  destruct (existsb (fun x => bool_decide _) db) eqn:E5; [discriminate|].
  intros [= <- <- <- <-]. exists r.
  apply Z.leb_gt in E1. apply Z.ltb_ge in E2. apply Z.ltb_ge in E4.
  repeat split; auto.
  apply Forall_forall. intros x Hx Heq.
  apply not_true_iff_false in E5. apply E5.
  apply existsb_exists. exists x.
  split; [by apply list_elem_of_In | by apply bool_decide_eq_true].
Qed.

(** A failed [createBooking] stores nothing. *)
Lemma createBooking_Failure_store env rooms db body code msg db' :
  Controller.createBooking env rooms db body = (Failure code msg, db') ->
  db' = db.
Proof.
  unfold Controller.createBooking.
  destruct (negb (validationOk body)); [congruence|].
  destruct (RoomModel.findById _ rooms) as [r|]; [|congruence].
  destruct (negb (isAvailable r)); [congruence|]. cbv zeta.
  destruct (_ <=? _); [congruence|].
  destruct (_ <? now env); [congruence|].
  destruct (0 <? _)%nat; [congruence|].
  destruct (_ <? body_numberOfGuests body); [congruence|].
  destruct (BookingModel.insert _ _ _) as [[saved db'']|]; congruence.
Qed.

(** ** Every stored document is valid *)

Ltac enum := unfold BookingSchema.bookingStatusEnum;
  rewrite ?elem_of_cons, ?elem_of_nil in *; tauto.

Lemma updateBookingStatus_updates env db id body :
  updates db (snd (Controller.updateBookingStatus env db id body)).
Proof.
  unfold Controller.updateBookingStatus.
  destruct (sb_status body) as [status|]; [|by left].
  destruct (bool_decide _) eqn:Hin; [|by left]. simpl.
  apply bool_decide_eq_true in Hin.
  destruct (BookingModel.findById id db) as [b|] eqn:Hf; [|by left].
  destruct (findById_Some _ _ _ Hf) as [_ Hb].
  right. unfold BookingModel.save. cbv zeta.
  match goal with
  | |- context [BookingModel.preSave env ?x] => set (b4 := x)
  end.
  exists b, (BookingModel.preSave env b4). simpl.
  split; [exact Hb|]. split; [reflexivity|].
  presave env b4.
  assert (Hb4 : checkInDate b4 = checkInDate b
                /\ checkOutDate b4 = checkOutDate b
                /\ bookingStatus b4 = status).
  { subst b4. repeat match goal with
    | |- context [if ?c then _ else _] => destruct c end; simpl; auto. }
  destruct Hb4 as (Hi & Ho & Hs).
  unfold validDoc, wellFormedStay. intros [Hwf _].
  split; [lia|]. replace (bookingStatus _) with status by congruence. enum.
Qed.

Lemma updatePaymentStatus_updates env db id body :
  updates db (snd (Controller.updatePaymentStatus env db id body)).
Proof.
  unfold Controller.updatePaymentStatus.
  destruct (pb_status body) as [status|]; [|by left].
  destruct (negb _); [by left|].
  destruct (BookingModel.findById id db) as [b|] eqn:Hf; [|by left].
  destruct (findById_Some _ _ _ Hf) as [_ Hb].
  right. unfold BookingModel.save. cbv zeta.
  match goal with
  | |- context [BookingModel.preSave env ?x] => set (b4 := x)
  end.
  exists b, (BookingModel.preSave env b4). simpl.
  split; [exact Hb|]. split; [reflexivity|].
  presave env b4.
  assert (Hb4 : checkInDate b4 = checkInDate b
                /\ checkOutDate b4 = checkOutDate b
                /\ (bookingStatus b4 = "confirmed"
                    \/ bookingStatus b4 = bookingStatus b)).
  { subst b4. repeat match goal with
    | |- context [match ?c with _ => _ end] => destruct c end; simpl; auto. }
  destruct Hb4 as (Hi & Ho & Hs).
  unfold validDoc, wellFormedStay. intros [Hwf Hst].
  split; [lia|]. destruct Hs as [Hs|Hs].
  - replace (bookingStatus _) with "confirmed" by congruence. enum.
  - replace (bookingStatus _) with (bookingStatus b) by congruence. done.
Qed.

Lemma cancelBooking_updates env db id body :
  updates db (snd (Controller.cancelBooking env db id body)).
Proof.
  unfold Controller.cancelBooking.
  destruct (BookingModel.findById id db) as [b|] eqn:Hf; [|by left].
  destruct (String.eqb _ "cancelled"); [by left|].
  destruct (String.eqb _ "checked_out"); [by left|].
  destruct (findById_Some _ _ _ Hf) as [_ Hb].
  right. unfold BookingModel.save. cbv zeta.
  match goal with
  | |- context [BookingModel.preSave env ?x] => set (b2 := x)
  end.
  exists b, (BookingModel.preSave env b2). simpl.
  split; [exact Hb|]. split; [reflexivity|].
  presave env b2.
  assert (Hb2 : checkInDate b2 = checkInDate b
                /\ checkOutDate b2 = checkOutDate b
                /\ bookingStatus b2 = "cancelled") by done.
  destruct Hb2 as (Hi & Ho & Hs).
  unfold validDoc, wellFormedStay. intros [Hwf _].
  split; [lia|]. replace (bookingStatus _) with "cancelled" by congruence.
  enum.
Qed.

Lemma updates_valid db db' :
  updates db db' -> Forall validDoc db -> Forall validDoc db'.
Proof.
  intros [->|(b & saved & Hb & -> & Hv)] Hall; [exact Hall|].
  apply Forall_replace; [exact Hall|].
  apply Hv. rewrite Forall_forall in Hall. by apply Hall.
Qed.

Lemma reachable_valid db :
  reachable db -> Forall validDoc db.
Proof.
  induction 1 as [|env rooms db body _ IH|env db id body _ IH
                  |env db id body _ IH|env db id body _ IH].
  - constructor.
  - destruct (Controller.createBooking env rooms db body) as [[c m s|c m] db']
      eqn:E; simpl.
    + apply createBooking_Success_inv in E
        as (r & _ & Hlt & _ & _ & _ & -> & _ & ->).
      apply Forall_app. split; [exact IH|]. constructor; [|constructor].
      unfold validDoc, wellFormedStay.
      presave env (Controller.newBooking env db body r).
      simpl in *. split; [lia|].
      enum.
    + apply createBooking_Failure_store in E. by subst.
  - eapply updates_valid; [apply updateBookingStatus_updates | exact IH].
  - eapply updates_valid; [apply updatePaymentStatus_updates | exact IH].
  - eapply updates_valid; [apply cancelBooking_updates | exact IH].
Qed.

Lemma reachable_wellFormed db :
  reachable db -> Forall wellFormedStay db.
Proof.
  intros H. apply reachable_valid in H.
  eapply Forall_impl; [exact H|]. by intros b [? _].
Qed.

(** ** The sample states are reachable *)

Ltac reach :=
  repeat first
    [ apply reach_empty | apply reach_create | apply reach_status
    | apply reach_payment | apply reach_cancel ].

Ltac zcmp := vm_compute; first [reflexivity | discriminate].

Lemma sample_reachable :
  reachable Sample.db1
  /\ reachable Sample.dbConfirmed
  /\ reachable Sample.dbCheckedIn
  /\ reachable Sample.dbTwice
  /\ reachable Sample.dbTwiceConfirmed.
Proof.
  unfold Sample.dbTwiceConfirmed, Sample.dbTwice, Sample.dbCheckedIn,
    Sample.dbConfirmed, Sample.db1.
  repeat split; reach.
Qed.

(** ** The overlap check of [createBooking] *)

(** C3. On an existing, available room and a valid future date range,
    [createBooking] answers "Room is not available for the selected
    dates" exactly when a confirmed or checked-in booking of that room
    has a stay intersecting [[checkIn, checkOut)]. *)
Theorem createBooking_RoomNotAvailable_iff env rooms db body roomData :
  reachable db ->
  validationOk body = true ->
  RoomModel.findById (body_room body) rooms = Some roomData ->
  isAvailable roomData = true ->
  body_checkInDate body < body_checkOutDate body ->
  now env <= body_checkInDate body ->
  fst (Controller.createBooking env rooms db body) = RoomNotAvailable
  <-> conflicting db (body_room body)
        (body_checkInDate body) (body_checkOutDate body).
Proof.
  intros Hreach Hv Hr Ha Hlt Hfut.
  rewrite (createBooking_guarded env rooms db body roomData Hv Hr Ha Hlt Hfut).
  rewrite <- (overlap_exists_iff db _ _ _ (reachable_wellFormed _ Hreach) Hlt).
  destruct (existsb _ db); simpl.
  - tauto.
  - split; [|discriminate].
    destruct (_ <? body_numberOfGuests body); simpl;
      [unfold RoomNotAvailable, OccupancyExceeded; simpl; discriminate|].
    destruct (BookingModel.insert _ _ _) as [[saved db']|]; discriminate.
Qed.

(** The scenario of the specification: with 2025-08-01..2025-08-03
    confirmed, 2025-08-02..2025-08-04 is refused and
    2025-08-03..2025-08-05 is not. *)
Lemma createBooking_RoomNotAvailable_iff_witness :
  fst (Controller.createBooking Sample.env2 Sample.rooms Sample.dbConfirmed
         (Sample.stay (Sample.aug 2) (Sample.aug 4) 2)) = RoomNotAvailable
  /\ ~ conflicting Sample.dbConfirmed 1%nat (Sample.aug 3) (Sample.aug 5).
Proof.
  destruct sample_reachable as (_ & Hreach & _).
  split.
  - apply (createBooking_RoomNotAvailable_iff Sample.env2 Sample.rooms
             Sample.dbConfirmed
             (Sample.stay (Sample.aug 2) (Sample.aug 4) 2) Sample.roomA);
      [exact Hreach | reflexivity | reflexivity | reflexivity
      | zcmp | zcmp |].
    apply overlap_exists_iff;
      [exact (reachable_wellFormed _ Hreach) | zcmp | zcmp].
  - intros Hc.
    apply (createBooking_RoomNotAvailable_iff Sample.env2 Sample.rooms
             Sample.dbConfirmed
             (Sample.stay (Sample.aug 3) (Sample.aug 5) 2) Sample.roomA)
      in Hc; [| exact Hreach | reflexivity | reflexivity | reflexivity
              | zcmp | zcmp ].
    vm_compute in Hc. discriminate Hc.
Defined.

(** The request for 2025-08-03..2025-08-05 is stored. *)
Lemma back_to_back_stay_accepted :
  exists saved,
    fst (Controller.createBooking Sample.env2 Sample.rooms Sample.dbConfirmed
           (Sample.stay (Sample.aug 3) (Sample.aug 5) 2))
    = Success 201 "Booking created successfully" saved
    /\ checkInDate saved = Sample.aug 3.
Proof. eexists. split; vm_compute; reflexivity. Qed.

(** ** The occupancy check of [createBooking] *)

(** With the Room schema of models/Room.js there is no nested
    [availability] object, and the limit is the room's [maxOccupancy]. *)
Lemma maxOccupancyOf_schema r n :
  availability_maxOccupancy r = None -> maxOccupancy r = Some n -> n <> 0 ->
  Controller.maxOccupancyOf r = n.
Proof.
  intros H1 H2 Hn. unfold Controller.maxOccupancyOf. rewrite H1, H2. simpl.
  apply Z.eqb_neq in Hn. by rewrite Hn.
Qed.

(** C9, as stated, fails: five guests for a room that sleeps two, on
    nights that a confirmed booking already holds, are answered with the
    overlap error, not with the occupancy error. *)
Lemma occupancy_error_masked_by_overlap :
  validationOk Sample.crowded = true
  /\ RoomModel.findById (body_room Sample.crowded) Sample.rooms
     = Some Sample.roomA
  /\ isAvailable Sample.roomA = true
  /\ body_checkInDate Sample.crowded < body_checkOutDate Sample.crowded
  /\ now Sample.env2 <= body_checkInDate Sample.crowded
  /\ Controller.maxOccupancyOf Sample.roomA
     < body_numberOfGuests Sample.crowded
  /\ fst (Controller.createBooking Sample.env2 Sample.rooms
            Sample.dbConfirmed Sample.crowded)
     = RoomNotAvailable
  /\ fst (Controller.createBooking Sample.env2 Sample.rooms
            Sample.dbConfirmed Sample.crowded)
     <> OccupancyExceeded (Controller.maxOccupancyOf Sample.roomA).
Proof. repeat split; zcmp. Qed.

(** C9, amended. A request for more guests than the room sleeps is always
    refused and stores nothing: with the occupancy error when no blocking
    booking conflicts with the dates, with the overlap error when one
    does, since the overlap query runs first. *)
Theorem createBooking_occupancy_rejected env rooms db body roomData :
  reachable db ->
  validationOk body = true ->
  RoomModel.findById (body_room body) rooms = Some roomData ->
  isAvailable roomData = true ->
  body_checkInDate body < body_checkOutDate body ->
  now env <= body_checkInDate body ->
  Controller.maxOccupancyOf roomData < body_numberOfGuests body ->
  snd (Controller.createBooking env rooms db body) = db
  /\ (~ conflicting db (body_room body)
          (body_checkInDate body) (body_checkOutDate body) ->
      fst (Controller.createBooking env rooms db body)
      = OccupancyExceeded (Controller.maxOccupancyOf roomData))
  /\ (conflicting db (body_room body)
        (body_checkInDate body) (body_checkOutDate body) ->
      fst (Controller.createBooking env rooms db body) = RoomNotAvailable).
Proof.
  intros Hreach Hv Hr Ha Hlt Hfut Hocc.
  rewrite (createBooking_guarded env rooms db body roomData Hv Hr Ha Hlt Hfut).
  rewrite <- (overlap_exists_iff db _ _ _ (reachable_wellFormed _ Hreach) Hlt).
  apply Z.ltb_lt in Hocc. rewrite Hocc.
  destruct (existsb _ db); simpl; repeat split; try done.
Qed.

Lemma createBooking_occupancy_rejected_witness :
  snd (Controller.createBooking Sample.env2 Sample.rooms Sample.db1
         Sample.crowded) = Sample.db1
  /\ fst (Controller.createBooking Sample.env2 Sample.rooms Sample.db1
            Sample.crowded) = OccupancyExceeded 2
  /\ fst (Controller.createBooking Sample.env2 Sample.rooms
            Sample.dbConfirmed Sample.crowded) = RoomNotAvailable.
Proof.
  destruct sample_reachable as (Hreach1 & Hreach & _).
  destruct (createBooking_occupancy_rejected Sample.env2 Sample.rooms
              Sample.db1 Sample.crowded Sample.roomA)
    as (Hs & Hocc & _);
    [exact Hreach1 | reflexivity | reflexivity | reflexivity
    | zcmp | zcmp | zcmp |].
  destruct (createBooking_occupancy_rejected Sample.env2 Sample.rooms
              Sample.dbConfirmed Sample.crowded Sample.roomA)
    as (_ & _ & Hov);
    [exact Hreach | reflexivity | reflexivity | reflexivity
    | zcmp | zcmp | zcmp |].
  split; [exact Hs|]. split.
  - apply Hocc. intros Hc.
    apply (overlap_exists_iff _ _ _ _ (reachable_wellFormed _ Hreach1))
      in Hc; [|zcmp]. vm_compute in Hc. discriminate Hc.
  - apply Hov.
    apply overlap_exists_iff;
      [exact (reachable_wellFormed _ Hreach) | zcmp | zcmp].
Defined.

(** ** Double booking *)

(** C1, as stated, fails: two [createBooking] requests for the same room
    and the same nights are both stored as [pending], since the overlap
    query looks at confirmed and checked-in bookings only. *)
Lemma double_booking_reachable :
  reachable Sample.dbTwice
  /\ ~ noDoubleBooking Sample.dbTwice.
Proof.
  split; [apply sample_reachable|].
  intros Hinv.
  assert (Hl : exists b1 b2,
             Sample.dbTwice = [b1; b2]
             /\ room b1 = room b2
             /\ bookingStatus b1 = "pending" /\ bookingStatus b2 = "pending"
             /\ checkInDate b1 = Sample.aug 1
             /\ checkOutDate b1 = Sample.aug 3
             /\ checkInDate b2 = Sample.aug 1
             /\ checkOutDate b2 = Sample.aug 3).
  { do 2 eexists. split; [vm_compute; reflexivity|].
    repeat split; vm_compute; reflexivity. }
  destruct Hl as (b1 & b2 & Hdb & Hroom & Hs1 & Hs2 & Hi1 & Ho1 & Hi2 & Ho2).
  rewrite Hdb in Hinv.
  apply (Hinv 0%nat 1%nat b1 b2); try done.
  - by rewrite Hs1.
  - by rewrite Hs2.
  - exists (Sample.aug 1). rewrite Hi1, Ho1, Hi2, Ho2.
    vm_compute. repeat split; discriminate.
Qed.

(** Nor is the invariant kept among blocking bookings: a status update
    runs no overlap query, so both bookings can be confirmed. *)
Lemma confirmed_double_booking_reachable :
  reachable Sample.dbTwiceConfirmed
  /\ exists b1 b2,
       Sample.dbTwiceConfirmed = [b1; b2]
       /\ room b1 = room b2 /\ blocking b1 /\ blocking b2
       /\ ~ disjointStays b1 b2.
Proof.
  split; [apply sample_reachable|].
  do 2 eexists. split; [vm_compute; reflexivity|].
  split; [vm_compute; reflexivity|].
  split; [left; vm_compute; reflexivity|].
  split; [left; vm_compute; reflexivity|].
  intros Hd. apply Hd. exists (Sample.aug 1).
  vm_compute. repeat split; discriminate.
Qed.

(** C1, amended. A booking that [createBooking] stores is appended to the
    collection as [pending], and its stay is disjoint from the stay of
    every booking of the same room that is confirmed or checked-in at
    that time. *)
Theorem createBooking_avoids_blocking env rooms db body saved db' :
  reachable db ->
  Controller.createBooking env rooms db body
  = (Success 201 "Booking created successfully" saved, db') ->
  db' = (db ++ [saved])%list
  /\ bookingStatus saved = "pending"
  /\ wellFormedStay saved
  /\ forall b, b ∈ db -> room b = room saved -> blocking b ->
               disjointStays b saved.
Proof.
  intros Hreach Hc.
  apply createBooking_Success_inv in Hc
    as (r & _ & Hlt & _ & Hex & _ & Hsaved & _ & Hdb).
  presave env (Controller.newBooking env db body r).
  rewrite <- Hsaved in *. simpl in *.
  split; [exact Hdb|]. split; [congruence|].
  split; [unfold wellFormedStay; lia|].
  intros b Hin Hroom Hblock Hint.
  assert (Hconf : conflicting db (body_room body)
                    (body_checkInDate body) (body_checkOutDate body)).
  { exists b. repeat split; try done; [congruence|].
    unfold disjointStays in *. congruence. }
  apply (overlap_exists_iff _ _ _ _ (reachable_wellFormed _ Hreach) Hlt)
    in Hconf. congruence.
Qed.

Lemma createBooking_avoids_blocking_witness :
  exists saved,
    Controller.createBooking Sample.env2 Sample.rooms Sample.dbConfirmed
      (Sample.stay (Sample.aug 3) (Sample.aug 5) 2)
    = (Success 201 "Booking created successfully" saved,
       (Sample.dbConfirmed ++ [saved])%list)
    /\ forall b, b ∈ Sample.dbConfirmed -> room b = room saved ->
                 blocking b -> disjointStays b saved.
Proof.
  destruct sample_reachable as (_ & Hreach & _).
  pose proof (fun saved db' =>
    createBooking_avoids_blocking Sample.env2 Sample.rooms
      Sample.dbConfirmed (Sample.stay (Sample.aug 3) (Sample.aug 5) 2)
      saved db' Hreach) as Hthm.
  edestruct Hthm as (_ & _ & _ & Hdisj); [vm_compute; reflexivity|].
  eexists. split; [|exact Hdisj]. vm_compute. reflexivity.
Defined.

(** ** Pricing *)

(** [Js.ceilDiv a b] is the least integer [n] with [a <= n * b]. *)
Lemma ceilDiv_bounds a b :
  0 < b -> (Js.ceilDiv a b - 1) * b < a <= Js.ceilDiv a b * b.
Proof.
  intros Hb. unfold Js.ceilDiv.
  pose proof (Z.div_mod (- a) b ltac:(lia)) as Hdm.
  pose proof (Z.mod_pos_bound (- a) b Hb) as Hm.
  nia.
Qed.

Lemma preSave_nights env b :
  numberOfNights (BookingModel.preSave env b)
  = Js.ceilDiv (checkOutDate b - checkInDate b) msPerDay.
Proof.
  unfold BookingModel.preSave.
  destruct (Js.truthyStr (bookingId b)); simpl;
    match goal with |- context [if ?c then _ else _] => destruct c end;
    reflexivity.
Qed.

(** What every successful [createBooking] stores under [pricing]: the
    nightly rate, the products and the sum, none of them rounded; the fee
    is part of the total and is not stored under a key of its own. *)
Lemma createBooking_pricing env rooms db body code msg saved db' :
  Controller.createBooking env rooms db body
  = (Success code msg saved, db') ->
  exists roomData,
    RoomModel.findById (body_room body) rooms = Some roomData
    /\ numberOfNights saved
       = Js.ceilDiv (body_checkOutDate body - body_checkInDate body) msPerDay
    /\ pricing saved !! "pricePerNight"
       = Some (JNum (Controller.pricePerNightOf roomData))
    /\ pricing saved !! "subtotal"
       = Some (JNum (Controller.pricePerNightOf roomData
                     * inject_Z (numberOfNights saved)))
    /\ pricing saved !! "taxes"
       = Some (JNum (Controller.pricePerNightOf roomData
                     * inject_Z (numberOfNights saved) * (12 # 100)))
    /\ pricing saved !! "totalAmount"
       = Some (JNum (Controller.pricePerNightOf roomData
                     * inject_Z (numberOfNights saved)
                     + Controller.pricePerNightOf roomData
                       * inject_Z (numberOfNights saved) * (12 # 100)
                     + 25))
    /\ pricing saved !! "fees" = Some (JNum 0)
    /\ pricing saved !! "serviceFee" = None.
Proof.
  intros Hc.
  apply createBooking_Success_inv in Hc
    as (r & Hr & _ & _ & _ & _ & Hsaved & _ & _).
  exists r. split; [exact Hr|].
  presave env (Controller.newBooking env db body r).
  pose proof (preSave_nights env (Controller.newBooking env db body r)) as Hn.
  rewrite <- Hsaved in *. simpl in Hn.
  split; [exact Hn|].
  repeat match goal with H : pricing saved = _ |- _ => rewrite H end.
  rewrite Hn. unfold Controller.newBooking. cbn [pricing].
  repeat split.
Qed.

(** The scenario of the specification: nightly rate 100, two nights. *)
Lemma pricing_scenario :
  exists saved subtotal taxes total,
    fst (Controller.createBooking Sample.env Sample.rooms []
           (Sample.stay (Sample.aug 1) (Sample.aug 3) 2))
    = Success 201 "Booking created successfully" saved
    /\ numberOfNights saved = 2
    /\ pricing saved !! "subtotal" = Some (JNum subtotal)
    /\ pricing saved !! "taxes" = Some (JNum taxes)
    /\ pricing saved !! "totalAmount" = Some (JNum total)
    /\ (subtotal == 200 /\ taxes == 24 /\ total == 249)%Q.
Proof.
  do 4 eexists. split; [vm_compute; reflexivity|].
  repeat split; vm_compute; reflexivity.
Qed.

(** C2, at a room of 99.99 a night booked for one night: the stored
    taxes are 11.9988 and the stored total 136.9888, where rounding to
    cents as [calculateBookingPricing] does gives 12 and 136.99; the
    fee of 25 is within the total, the stored [fees] is 0. *)
Theorem createBooking_pricing_not_rounded :
  exists saved subtotal taxes total,
    fst (Controller.createBooking Sample.env Sample.rooms []
           Sample.oneNightB)
    = Success 201 "Booking created successfully" saved
    /\ numberOfNights saved = 1
    /\ pricing saved !! "subtotal" = Some (JNum subtotal)
    /\ pricing saved !! "taxes" = Some (JNum taxes)
    /\ pricing saved !! "totalAmount" = Some (JNum total)
    /\ pricing saved !! "fees" = Some (JNum 0)
    /\ pricing saved !! "serviceFee" = None
    /\ (subtotal == 9999 # 100)%Q
    /\ (taxes == 119988 # 10000)%Q
    /\ (roundCents taxes == 12)%Q
    /\ ~ (taxes == roundCents taxes)%Q
    /\ (total == 1369888 # 10000)%Q
    /\ (roundCents total == 13699 # 100)%Q
    /\ ~ (total == roundCents total)%Q.
Proof.
  do 4 eexists. split; [vm_compute; reflexivity|].
  repeat split; zcmp.
Qed.

(** The pricing helper does round each amount to cents. *)
Lemma calculateBookingPricing_cents basePrice nights taxRate feeRate :
  let p := calculateBookingPricing basePrice nights taxRate feeRate in
  (exists n, p_subtotal p == inject_Z n / 100)%Q
  /\ (exists n, p_taxes p == inject_Z n / 100)%Q
  /\ (exists n, p_fees p == inject_Z n / 100)%Q
  /\ (exists n, p_totalAmount p == inject_Z n / 100)%Q.
Proof.
  simpl. unfold roundCents. repeat split; eexists; reflexivity.
Qed.

(** ** Availability queries *)

(** C4, at a reachable store in which the booking of room 1 for
    2025-08-01..2025-08-03 is checked in, and for the room that is out of
    service: [checkRoomAvailability] answers [true] for
    2025-08-02..2025-08-04 in room 1 and [true] for room 3, where
    [getRoomAvailability] answers [false] for both. *)
Theorem checkRoomAvailability_misses :
  reachable Sample.dbCheckedIn
  /\ isAvailable Sample.roomA = true
  /\ conflicting Sample.dbCheckedIn 1%nat (Sample.aug 2) (Sample.aug 4)
  /\ checkRoomAvailability Sample.dbCheckedIn 1%nat
       (Sample.aug 2) (Sample.aug 4) None = true
  /\ getRoomAvailability Sample.rooms Sample.dbCheckedIn 1%nat
       (Some (Sample.aug 2)) (Some (Sample.aug 4)) = Availability false 1
  /\ isAvailable Sample.roomC = false
  /\ checkRoomAvailability Sample.dbCheckedIn 3%nat
       (Sample.aug 2) (Sample.aug 4) None = true
  /\ getRoomAvailability Sample.rooms Sample.dbCheckedIn 3%nat
       (Some (Sample.aug 2)) (Some (Sample.aug 4)) = Availability false 0.
Proof.
  destruct sample_reachable as (_ & _ & Hreach & _).
  split; [exact Hreach|]. split; [reflexivity|]. split.
  - apply overlap_exists_iff;
      [exact (reachable_wellFormed _ Hreach) | zcmp | zcmp].
  - repeat split; zcmp.
Qed.

(** The status list of [checkRoomAvailability] names no status of the
    schema's enum but [confirmed]: a checked-in booking never counts. *)
Lemma checkRoomAvailability_ignores_checked_in db roomRef ci co ex b :
  bookingStatus b = "checked_in" ->
  checkRoomAvailability (b :: db) roomRef ci co ex
  = checkRoomAvailability db roomRef ci co ex.
Proof.
  intros Hs. unfold checkRoomAvailability, BookingModel.overlapQuery.
  simpl. rewrite Hs.
  rewrite bool_decide_eq_false_2
    by (rewrite !elem_of_cons, elem_of_nil; intros [?|[?|[]]]; discriminate).
  by rewrite andb_false_r.
Qed.

(** X27. On a reachable store [checkRoomAvailability] answers whether no
    confirmed booking of the room, the excluded one apart, has a stay
    intersecting the range. *)
Lemma checkRoomAvailability_iff db roomRef ci co ex :
  reachable db -> ci < co ->
  checkRoomAvailability db roomRef ci co ex = true
  <-> ~ exists b, b ∈ db /\ room b = roomRef
                  /\ bookingStatus b = "confirmed"
                  /\ intersects (checkInDate b) (checkOutDate b) ci co
                  /\ ex <> Some (_id b).
Proof.
  intros Hreach Hlt. apply reachable_valid in Hreach.
  rewrite Forall_forall in Hreach.
  unfold checkRoomAvailability.
  rewrite filter_empty, negb_true_iff, <- not_true_iff_false.
  apply not_iff_compat. rewrite existsb_exists.
  split.
  - intros (b & Hin & Hq). apply list_elem_of_In in Hin.
    destruct (Hreach b Hin) as [Hwf Hst].
    apply andb_true_iff in Hq as [Hq Hex].
    unfold BookingModel.overlapQuery in Hq.
    rewrite !andb_true_iff, Nat.eqb_eq, bool_decide_eq_true, !Z.ltb_lt in Hq.
    destruct Hq as (((Hr & Hs) & H1) & H2).
    exists b. split; [exact Hin|]. split; [exact Hr|]. split.
    + rewrite !elem_of_cons, elem_of_nil in Hs.
      destruct Hs as [Hs|[Hs|[]]]; [exact Hs|].
      rewrite Hs in Hst. revert Hst. unfold BookingSchema.bookingStatusEnum.
      rewrite !elem_of_cons, elem_of_nil.
      intros [?|[?|[?|[?|[?|[?|[]]]]]]]; discriminate.
    + split; [apply intersects_iff; auto|].
      destruct ex as [e|]; [|discriminate].
      apply negb_true_iff, Nat.eqb_neq in Hex. congruence.
  - intros (b & Hin & Hr & Hs & Hi & Hex).
    destruct (Hreach b Hin) as [Hwf _].
    apply intersects_iff in Hi; auto.
    exists b. split; [by apply list_elem_of_In|].
    apply andb_true_iff. split.
    + unfold BookingModel.overlapQuery.
      rewrite !andb_true_iff, Nat.eqb_eq, bool_decide_eq_true, !Z.ltb_lt.
      rewrite Hs. repeat split; try tauto. by left.
    + destruct ex as [e|]; [|reflexivity].
      apply negb_true_iff, Nat.eqb_neq. congruence.
Qed.

(** X28. The route handler [getRoomAvailability] computes what the
    specification asks of the availability query, without the
    exclusion. *)
Lemma getRoomAvailability_iff rooms db id ci co r :
  reachable db ->
  RoomModel.findById id rooms = Some r ->
  ci < co ->
  exists a n,
    getRoomAvailability rooms db id (Some ci) (Some co) = Availability a n
    /\ (a = true <-> isAvailable r = true /\ ~ conflicting db id ci co).
Proof.
  intros Hreach Hr Hlt. unfold getRoomAvailability.
  rewrite (proj2 (Z.leb_gt _ _)) by lia. rewrite Hr.
  do 2 eexists. split; [reflexivity|].
  rewrite filter_empty, andb_true_iff, negb_true_iff.
  rewrite <- (overlap_exists_iff db _ _ _ (reachable_wellFormed _ Hreach) Hlt).
  rewrite not_true_iff_false. tauto.
Qed.

(** ** Strict schemas *)

Example strict_drops_undeclared :
  Mongoose.construct BookingSchema.paymentInfo
    (Controller.paymentData (Some "cash") None) !! "status" = None
  /\ Mongoose.construct BookingSchema.paymentInfo
       (Controller.paymentData (Some "cash") None) !! "method" = None.
Proof. split; reflexivity. Qed.

Example strict_fills_default :
  Mongoose.construct BookingSchema.paymentInfo
    (Controller.paymentData (Some "cash") None) !! "paymentStatus"
  = Some (JStr "pending").
Proof. reflexivity. Qed.

(** * Further properties *)

(** ** What one operation does to one document *)

Lemma preSave_more env b :
  let s := BookingModel.preSave env b in
  numberOfGuests s = numberOfGuests b /\ guestInfo s = guestInfo b
  /\ source s = source b
  /\ (Js.truthyStr (bookingId b) = true -> bookingId s = bookingId b)
  /\ Js.truthyStr (bookingId s) = true
  /\ (Js.truthyStr (confirmationNumber b) = true ->
      confirmationNumber s = confirmationNumber b)
  /\ (bookingStatus b = "confirmed" ->
      Js.truthyStr (confirmationNumber s) = true)
  /\ (bookingStatus b <> "confirmed" ->
      confirmationNumber s = confirmationNumber b)
  /\ numberOfNights s = duration s.
Proof.
  unfold BookingModel.preSave, duration.
  destruct (Js.truthyStr (bookingId b)) eqn:Hid; simpl;
    destruct (Js.truthyStr (confirmationNumber b)) eqn:Hc; simpl;
    destruct (String.eqb (bookingStatus b) "confirmed") eqn:Hs; simpl;
    repeat split; auto; try congruence;
    try (apply String.eqb_neq in Hs; intros; congruence);
    try (apply String.eqb_eq in Hs; intros; congruence).
Qed.

Lemma preSave_docStep env b0 b :
  sameStay b0 b -> keepsStamps b0 b ->
  paymentInfo b !! "paymentStatus" = paymentInfo b0 !! "paymentStatus" ->
  paymentInfo b !! "status" = paymentInfo b0 !! "status" ->
  (lifecycle b0 ->
     (bookingStatus b = "checked_in" -> is_Some (checkInTime b))
     /\ (bookingStatus b = "checked_out" -> is_Some (checkOutTime b))) ->
  docStep b0 (BookingModel.preSave env b).
Proof.
  intros (H1 & H2 & H3 & H4 & H5 & H6 & H7 & H8) (K1 & K2 & K3 & K4)
    Hp Hs Hl.
  presave env b.
  destruct (preSave_more env b) as (M1 & M2 & M3 & M4 & M5 & M6 & M7 & M8 & M9).
  unfold docStep, sameStay, keepsStamps.
  split; [repeat split; congruence|].
  split.
  { repeat split; intros Ht.
    - rewrite <- (K1 Ht). apply M4. rewrite (K1 Ht). exact Ht.
    - rewrite <- (K2 Ht). apply M6. rewrite (K2 Ht). exact Ht.
    - rewrite <- (K3 Ht). congruence.
    - rewrite <- (K4 Ht). congruence. }
  split; [congruence|]. split; [congruence|].
  split; [exact M9|]. split; [exact M5|].
  intros Hlc. destruct (Hl Hlc) as [Hin Hout].
  unfold lifecycle. repeat split; intros Hst.
  - apply M7. congruence.
  - replace (checkInTime _) with (checkInTime b) by congruence.
    apply Hin. congruence.
  - replace (checkOutTime _) with (checkOutTime b) by congruence.
    apply Hout. congruence.
Qed.

Ltac status_cases body status b :=
  destruct (Js.truthyStr (sb_notes body)); simpl;
  destruct (checkInTime b) eqn:?Hti; simpl;
  destruct (String.eqb status "checked_in") eqn:?E1; simpl;
  rewrite ?Hti; simpl;
  destruct (checkOutTime b) eqn:?Hto; simpl;
  destruct (String.eqb status "checked_out") eqn:?E2; simpl;
  rewrite ?Hti, ?Hto; simpl.

Lemma updateBookingStatus_step env db id body :
  updatesBy id db (snd (Controller.updateBookingStatus env db id body)).
Proof.
  unfold Controller.updateBookingStatus.
  destruct (sb_status body) as [status|]; [|by left].
  destruct (negb _); [by left|].
  destruct (BookingModel.findById id db) as [b|] eqn:Hf; [|by left].
  right. unfold BookingModel.save. cbv zeta.
  match goal with
  | |- context [BookingModel.preSave env ?x] => set (b4 := x)
  end.
  exists b, (BookingModel.preSave env b4). simpl.
  split; [exact Hf|]. split; [reflexivity|].
  apply preSave_docStep; subst b4.
  - unfold sameStay. status_cases body status b; repeat split.
  - unfold keepsStamps. status_cases body status b;
      repeat split; auto; intros [? [=]].
  - status_cases body status b; reflexivity.
  - status_cases body status b; reflexivity.
  - intros _. status_cases body status b;
      try apply String.eqb_neq in E1; try apply String.eqb_neq in E2;
      split; intros Hst; eauto; congruence.
Qed.

Lemma updatePaymentStatus_step env db id body :
  updatesBy id db (snd (Controller.updatePaymentStatus env db id body)).
Proof.
  unfold Controller.updatePaymentStatus.
  destruct (pb_status body) as [status|]; [|by left].
  destruct (negb _); [by left|].
  destruct (BookingModel.findById id db) as [b|] eqn:Hf; [|by left].
  right. unfold BookingModel.save. cbv zeta.
  rewrite (assign_undeclared BookingSchema.paymentInfo "status")
    by reflexivity.
  match goal with
  | |- context [BookingModel.preSave env ?x] => set (b4 := x)
  end.
  exists b, (BookingModel.preSave env b4). simpl.
  split; [exact Hf|]. split; [reflexivity|].
  assert (Hcases :
    sameStay b b4 /\ keepsStamps b b4
    /\ paymentInfo b4 !! "paymentStatus" = paymentInfo b !! "paymentStatus"
    /\ paymentInfo b4 !! "status" = paymentInfo b !! "status"
    /\ checkInTime b4 = checkInTime b /\ checkOutTime b4 = checkOutTime b
    /\ (bookingStatus b4 = bookingStatus b
        \/ bookingStatus b4 = "confirmed")).
  { subst b4. unfold sameStay, keepsStamps.
    destruct (pb_transactionId body) as [t|]; [destruct (Js.truthyStr _)|];
      destruct (pb_paymentDate body) as [d|];
      destruct (String.eqb status "completed");
      simpl; destruct (String.eqb (bookingStatus b) "pending"); simpl;
      rewrite ?assign_lookup_ne by discriminate; repeat split; auto. }
  destruct Hcases as (H1 & H2 & H3 & H4 & H5 & H6 & H7).
  apply preSave_docStep; auto.
  intros (_ & Hin & Hout). rewrite H5, H6.
  destruct H7 as [H7|H7]; rewrite H7; split; auto; discriminate.
Qed.

Lemma cancelBooking_step env db id body :
  updatesBy id db (snd (Controller.cancelBooking env db id body)).
Proof.
  unfold Controller.cancelBooking.
  destruct (BookingModel.findById id db) as [b|] eqn:Hf; [|by left].
  destruct (String.eqb _ "cancelled"); [by left|].
  destruct (String.eqb _ "checked_out"); [by left|].
  right. unfold BookingModel.save. cbv zeta.
  match goal with
  | |- context [BookingModel.preSave env ?x] => set (b2 := x)
  end.
  exists b, (BookingModel.preSave env b2). simpl.
  split; [exact Hf|]. split; [reflexivity|].
  apply preSave_docStep; subst b2; simpl.
  - repeat split.
  - repeat split.
  - reflexivity.
  - reflexivity.
  - intros _. split; discriminate.
Qed.

(** ** Replacing a document in the collection *)

Lemma replace_lookup d db b i x :
  BookingModel.findById (_id d) db = Some b ->
  db !! i = Some x ->
  BookingModel.replace d db !! i = Some x
  \/ (x = b /\ BookingModel.replace d db !! i = Some d).
Proof.
  intros Hf. revert i. induction db as [|y db IH]; intros i Hi; [done|].
  simpl in Hf |- *. destruct (Nat.eqb (_id y) (_id d)) eqn:E.
  - injection Hf as <-. destruct i as [|i]; simpl in *.
    + injection Hi as <-. by right.
    + by left.
  - destruct i as [|i]; simpl in *; [by left|]. by apply IH.
Qed.

Lemma replace_length d db :
  length (BookingModel.replace d db) = length db.
Proof.
  induction db as [|y db IH]; simpl; [done|].
  destruct (Nat.eqb (_id y) (_id d)); simpl; congruence.
Qed.

Lemma replace_other d db id :
  id <> _id d ->
  BookingModel.findById id (BookingModel.replace d db)
  = BookingModel.findById id db.
Proof.
  intros Hne. induction db as [|y db IH]; simpl; [done|].
  destruct (Nat.eqb (_id y) (_id d)) eqn:E; simpl.
  - apply Nat.eqb_eq in E.
    destruct (Nat.eqb (_id d) id) eqn:E1;
      [apply Nat.eqb_eq in E1; congruence|].
    destruct (Nat.eqb (_id y) id) eqn:E2;
      [apply Nat.eqb_eq in E2; congruence | done].
  - destruct (Nat.eqb (_id y) id); [done | apply IH].
Qed.

Lemma docStep_id b b' : docStep b b' -> _id b' = _id b.
Proof. by intros ((? & _) & _). Qed.

(** Every invariant of single documents that holds at creation and is
    kept by [docStep] holds throughout every reachable store. *)
Lemma reachable_Forall (P : Booking -> Prop) :
  (forall b, created b -> P b) ->
  (forall b b', P b -> docStep b b' -> P b') ->
  forall db, reachable db -> Forall P db.
Proof.
  intros Hcreate Hstep db Hreach.
  assert (Hup : forall id db db',
             updatesBy id db db' -> Forall P db -> Forall P db').
  { intros id d d' [->|(b & saved & Hf & -> & Hs)] Hall; [done|].
    apply Forall_replace; [done|].
    apply (Hstep b); [|done].
    rewrite Forall_forall in Hall. apply Hall.
    by destruct (findById_Some _ _ _ Hf). }
  induction Hreach as [|env rooms db body _ IH|env db id body _ IH
                       |env db id body _ IH|env db id body _ IH].
  - constructor.
  - destruct (Controller.createBooking env rooms db body) as [[c m s|c m] db']
      eqn:E; simpl.
    + apply createBooking_Success_inv in E
        as (r & _ & Hlt & _ & _ & _ & -> & _ & ->).
      apply Forall_app. split; [exact IH|]. constructor; [|constructor].
      apply Hcreate. by exists env, db, body, r.
    + apply createBooking_Failure_store in E. by subst.
  - eapply Hup; [apply updateBookingStatus_step | exact IH].
  - eapply Hup; [apply updatePaymentStatus_step | exact IH].
  - eapply Hup; [apply cancelBooking_step | exact IH].
Qed.

Lemma docStep_refl_parts b : sameStay b b /\ keepsStamps b b.
Proof. unfold sameStay, keepsStamps. repeat split. Qed.

Lemma updatesBy_pointwise id db db' :
  updatesBy id db db' ->
  length db' = length db
  /\ forall i b, db !! i = Some b ->
       exists b', db' !! i = Some b' /\ sameStay b b' /\ keepsStamps b b'
                  /\ (_id b <> id -> b' = b).
Proof.
  intros [->|(b0 & saved & Hf & -> & Hs)].
  - split; [done|]. intros i b Hi. exists b.
    destruct (docStep_refl_parts b). by split_and!.
  - split; [apply replace_length|]. intros i b Hi.
    destruct (findById_Some _ _ _ Hf) as [Hid0 _].
    assert (Hf' : BookingModel.findById (_id saved) db = Some b0).
    { rewrite (docStep_id _ _ Hs). by rewrite Hid0. }
    destruct (replace_lookup saved db b0 i b Hf' Hi) as [H|[-> H]].
    + exists b. destruct (docStep_refl_parts b). by split_and!.
    + exists saved. destruct Hs as (H1 & H2 & _).
      split; [exact H|]. split; [exact H1|]. split; [exact H2|].
      intros Hne. by destruct Hne.
Qed.

(** ** Atomicity of the rejections *)



(** ** What no update touches *)

(** X2. A status update, a payment update and a cancellation keep every
    document at its place in the collection with its [_id], room, dates,
    guest count, guest details, pricing and source; documents other than
    the one addressed are left as they are.  Nothing is ever removed. *)
Theorem updates_keep_stay env db id status payment cancel db' :
  db' = snd (Controller.updateBookingStatus env db id status)
  \/ db' = snd (Controller.updatePaymentStatus env db id payment)
  \/ db' = snd (Controller.cancelBooking env db id cancel) ->
  length db' = length db
  /\ forall i b, db !! i = Some b ->
       exists b', db' !! i = Some b' /\ sameStay b b'
                  /\ (_id b <> id -> b' = b).
Proof.
  intros Hdb.
  assert (Hup : updatesBy id db db').
  { destruct Hdb as [->|[->| ->]];
      [apply updateBookingStatus_step | apply updatePaymentStatus_step
      | apply cancelBooking_step]. }
  destruct (updatesBy_pointwise _ _ _ Hup) as [Hlen Hpt].
  split; [exact Hlen|]. intros i b Hi.
  destruct (Hpt i b Hi) as (b' & H1 & H2 & _ & H4). eauto.
Qed.

Lemma updates_keep_stay_witness :
  length Sample.dbCancelled = length Sample.db1
  /\ exists b b', Sample.db1 !! 0%nat = Some b
       /\ Sample.dbCancelled !! 0%nat = Some b' /\ sameStay b b'.
Proof.
  destruct (updates_keep_stay Sample.env Sample.db1 1%nat
              (mkStatusBody None None) (mkPaymentBody None None None None)
              Sample.cancelRequest Sample.dbCancelled) as [Hlen Hpt].
  { right. right. reflexivity. }
  split; [exact Hlen|].
  pose proof (fun b => Hpt 0%nat b) as H.
  edestruct H as (b' & Hb' & Hs & _); [vm_compute; reflexivity|].
  do 2 eexists. split; [vm_compute; reflexivity|]. split; [exact Hb'|].
  exact Hs.
Defined.

(** X3. What is written once stays: no status update, payment update or
    cancellation changes a booking id, a confirmation number, a check-in
    time or a check-out time that the document already has. *)
Theorem stamps_written_once env db id status payment cancel db' :
  db' = snd (Controller.updateBookingStatus env db id status)
  \/ db' = snd (Controller.updatePaymentStatus env db id payment)
  \/ db' = snd (Controller.cancelBooking env db id cancel) ->
  forall i b, db !! i = Some b ->
    exists b', db' !! i = Some b'
      /\ (Js.truthyStr (bookingId b) = true -> bookingId b' = bookingId b)
      /\ (Js.truthyStr (confirmationNumber b) = true ->
          confirmationNumber b' = confirmationNumber b)
      /\ (is_Some (checkInTime b) -> checkInTime b' = checkInTime b)
      /\ (is_Some (checkOutTime b) -> checkOutTime b' = checkOutTime b).
Proof.
  intros Hdb.
  assert (Hup : updatesBy id db db').
  { destruct Hdb as [->|[->| ->]];
      [apply updateBookingStatus_step | apply updatePaymentStatus_step
      | apply cancelBooking_step]. }
  destruct (updatesBy_pointwise _ _ _ Hup) as [_ Hpt].
  intros i b Hi. destruct (Hpt i b Hi) as (b' & H1 & _ & H3 & _).
  exists b'. split; [exact H1 | exact H3].
Qed.

(** A guest checked in on day 20270 and checked in again on day 20271
    keeps the first check-in time. *)
Lemma stamps_written_once_witness :
  exists b', snd (Controller.updateBookingStatus Sample.env2
                    Sample.dbCheckedIn 1%nat
                    (mkStatusBody (Some "checked_in") None)) !! 0%nat
             = Some b'
    /\ checkInTime b' = Some (now Sample.env).
Proof.
  pose proof (fun b => stamps_written_once Sample.env2 Sample.dbCheckedIn
    1%nat (mkStatusBody (Some "checked_in") None)
    (mkPaymentBody None None None None) Sample.cancelRequest _
    (or_introl eq_refl) 0%nat b) as H.
  edestruct H as (b' & Hb' & _ & _ & Hin & _); [vm_compute; reflexivity|].
  exists b'. split; [exact Hb'|]. rewrite Hin; [vm_compute; reflexivity|].
  vm_compute. eexists. reflexivity.
Defined.

(** ** Invariants of the reachable stores *)

Lemma created_fields b :
  created b ->
  wellFormedStay b /\ bookingStatus b = "pending"
  /\ numberOfNights b = duration b
  /\ paymentInfo b !! "paymentStatus" = Some (JStr "pending")
  /\ paymentInfo b !! "status" = None
  /\ exists rate,
       pricing b !! "pricePerNight" = Some (JNum rate)
       /\ pricing b !! "subtotal"
          = Some (JNum (rate * inject_Z (duration b)))
       /\ pricing b !! "taxes"
          = Some (JNum (rate * inject_Z (duration b) * (12 # 100)))
       /\ pricing b !! "totalAmount"
          = Some (JNum (rate * inject_Z (duration b)
                        + rate * inject_Z (duration b) * (12 # 100) + 25))
       /\ pricing b !! "fees" = Some (JNum 0).
Proof.
  intros (env & db & body & r & Hlt & ->).
  presave env (Controller.newBooking env db body r).
  destruct (preSave_more env (Controller.newBooking env db body r))
    as (_ & _ & _ & _ & _ & _ & _ & _ & Hn).
  unfold wellFormedStay, duration in *.
  repeat match goal with
         | H : _ (BookingModel.preSave _ _) = _ |- _ => rewrite H
         end.
  simpl. repeat split; try done.
  exists (Controller.pricePerNightOf r). repeat split.
Qed.

Lemma reachable_duration db b :
  reachable db -> b ∈ db -> numberOfNights b = duration b.
Proof.
  intros Hreach. revert b. apply Forall_forall.
  apply (reachable_Forall (fun b => numberOfNights b = duration b));
    [|by intros ? ? _ (_ & _ & _ & _ & ? & _) | exact Hreach].
  intros x Hx. by destruct (created_fields x Hx) as (_ & _ & ? & _).
Qed.

(** X4. In every reachable store the stored number of nights of a booking
    is its [duration]: the least number of whole days that covers the
    stay, and at least one. *)
Theorem reachable_nights db b :
  reachable db -> b ∈ db ->
  numberOfNights b = duration b
  /\ 1 <= numberOfNights b
  /\ (numberOfNights b - 1) * msPerDay
     < checkOutDate b - checkInDate b
     <= numberOfNights b * msPerDay.
Proof.
  intros Hreach Hin.
  pose proof (reachable_duration db b Hreach Hin) as Hn.
  pose proof (reachable_wellFormed db Hreach) as Hwf.
  rewrite Forall_forall in Hwf. specialize (Hwf b Hin).
  unfold wellFormedStay in Hwf. rewrite Hn. unfold duration.
  pose proof (ceilDiv_bounds (checkOutDate b - checkInDate b) msPerDay
                ltac:(reflexivity)) as Hb.
  split; [done|]. split; [|done].
  unfold msPerDay in *. lia.
Qed.

Lemma reachable_nights_witness :
  exists b, b ∈ Sample.dbCheckedOut /\ numberOfNights b = 2.
Proof.
  destruct Sample.dbCheckedOut as [|b l] eqn:E; [vm_compute in E; done|].
  exists b. split; [left|].
  destruct (reachable_nights Sample.dbCheckedOut b) as (Hn & _).
  - unfold Sample.dbCheckedOut, Sample.dbCheckedIn, Sample.dbConfirmed,
      Sample.db1. reach.
  - rewrite E. left.
  - rewrite Hn. vm_compute in E. injection E as <- _. vm_compute.
    reflexivity.
Defined.



Lemma reachable_payment_pending_aux db b :
  reachable db -> b ∈ db ->
  paymentInfo b !! "paymentStatus" = Some (JStr "pending")
  /\ paymentInfo b !! "status" = None.
Proof.
  intros Hreach. revert b. apply Forall_forall.
  apply (reachable_Forall
           (fun b => paymentInfo b !! "paymentStatus" = Some (JStr "pending")
                     /\ paymentInfo b !! "status" = None));
    [| |exact Hreach].
  - intros x Hx. by destruct (created_fields x Hx) as (_ & _ & _ & ? & ? & _).
  - intros x x' [H1 H2] (_ & _ & Hp & Hs & _). by rewrite Hp, Hs.
Qed.

(** X6. No sequence of operations stores a payment status: in every
    reachable store the payment status of every booking is the schema's
    default [pending], and the key [status] that the controllers write
    and query is absent. *)
Theorem reachable_payment_pending db b :
  reachable db -> b ∈ db ->
  paymentInfo b !! "paymentStatus" = Some (JStr "pending")
  /\ paymentInfo b !! "status" = None.
Proof. apply reachable_payment_pending_aux. Qed.

Lemma reachable_payment_pending_witness :
  exists b, b ∈ Sample.dbConfirmed
    /\ paymentInfo b !! "paymentStatus" = Some (JStr "pending")
    /\ paymentInfo b !! "status" = None.
Proof.
  destruct sample_reachable as (_ & Hreach & _).
  assert (Hex : exists b, b ∈ Sample.dbConfirmed)
    by (vm_compute; eexists; left).
  destruct Hex as [b Hin]. exists b. split; [exact Hin|].
  exact (reachable_payment_pending Sample.dbConfirmed b Hreach Hin).
Defined.

Lemma reachable_lifecycle_aux db b :
  reachable db -> b ∈ db -> lifecycle b.
Proof.
  intros Hreach. revert b. apply Forall_forall.
  apply (reachable_Forall lifecycle); [| |exact Hreach].
  - intros x Hx. destruct (created_fields x Hx) as (_ & Hs & _).
    unfold lifecycle. rewrite Hs. repeat split; discriminate.
  - intros x x' Hl (_ & _ & _ & _ & _ & _ & H). by apply H.
Qed.

(** X7. In every reachable store a confirmed booking has a confirmation
    number, a checked-in booking a check-in time and a checked-out
    booking a check-out time. *)
Theorem reachable_lifecycle db b :
  reachable db -> b ∈ db ->
  (bookingStatus b = "confirmed" ->
     exists c, confirmationNumber b = Some c /\ c <> "")
  /\ (bookingStatus b = "checked_in" ->
     exists t, checkInTime b = Some t)
  /\ (bookingStatus b = "checked_out" ->
     exists t, checkOutTime b = Some t).
Proof.
  intros Hreach Hin.
  destruct (reachable_lifecycle_aux db b Hreach Hin) as (H1 & H2 & H3).
  repeat split; intros Hs.
  - specialize (H1 Hs). unfold Js.truthyStr in H1.
    destruct (confirmationNumber b) as [c|]; [|discriminate].
    exists c. split; [done|]. intros ->. discriminate.
  - exact (H2 Hs).
  - exact (H3 Hs).
Qed.

Lemma reachable_lifecycle_witness :
  exists b, b ∈ Sample.dbCheckedOut
    /\ bookingStatus b = "checked_out"
    /\ exists t, checkOutTime b = Some t.
Proof.
  assert (Hreach : reachable Sample.dbCheckedOut).
  { unfold Sample.dbCheckedOut, Sample.dbCheckedIn, Sample.dbConfirmed,
      Sample.db1. reach. }
  assert (Hex : exists b, b ∈ Sample.dbCheckedOut
                          /\ bookingStatus b = "checked_out")
    by (vm_compute; eexists; split; [left | reflexivity]).
  destruct Hex as (b & Hin & Hs). exists b.
  split; [exact Hin|]. split; [exact Hs|].
  exact (proj2 (proj2 (reachable_lifecycle _ b Hreach Hin)) Hs).
Defined.

(** ** Cancelling twice *)

(** X8. A cancellation that succeeded cannot be repeated: the next
    [cancelBooking] on the same booking, whatever its body and whenever
    it comes, answers "Booking is already cancelled" and stores
    nothing. *)
Theorem cancel_twice env env' db id body body' c m saved :
  fst (Controller.cancelBooking env db id body) = Success c m saved ->
  Controller.cancelBooking env'
    (snd (Controller.cancelBooking env db id body)) id body'
  = (AlreadyCancelled, snd (Controller.cancelBooking env db id body)).
Proof.
  intros Hok.
  destruct (BookingModel.findById id db) as [b|] eqn:Hf;
    [|unfold Controller.cancelBooking in Hok; by rewrite Hf in Hok].
  destruct (String.eqb (bookingStatus b) "cancelled") eqn:E1;
    [unfold Controller.cancelBooking in Hok; by rewrite Hf, E1 in Hok|].
  destruct (String.eqb (bookingStatus b) "checked_out") eqn:E2;
    [unfold Controller.cancelBooking in Hok; by rewrite Hf, E1, E2 in Hok|].
  apply String.eqb_neq in E1, E2.
  destruct (cancelBooking_effect env db id b body Hf E1 E2)
    as (s & Heq & Hfs & Hst & _).
  rewrite Heq. simpl.
  unfold Controller.cancelBooking at 1. by rewrite Hfs, Hst.
Qed.

Lemma cancel_twice_witness :
  Controller.cancelBooking Sample.env2
    (snd (Controller.cancelBooking Sample.env Sample.db1 1%nat
            Sample.cancelRequest)) 1%nat (mkCancelBody None None)
  = (AlreadyCancelled,
     snd (Controller.cancelBooking Sample.env Sample.db1 1%nat
            Sample.cancelRequest)).
Proof.
  pose proof (fun c m saved =>
    cancel_twice Sample.env Sample.env2 Sample.db1 1%nat
      Sample.cancelRequest (mkCancelBody None None) c m saved) as H.
  eapply H. vm_compute. reflexivity.
Defined.

(** ** Confirmation numbers *)

Lemma string_length_app (s1 s2 : string) :
  String.length (s1 +:+ s2) = (String.length s1 + String.length s2)%nat.
Proof. induction s1 as [|c s1 IH]; simpl; [done | by rewrite IH]. Qed.

Lemma pretty_N_go_length (k : nat) (x : N) (s : string) :
  (10 ^ N.of_nat k <= x < 10 ^ N.of_nat (S k))%N ->
  String.length (pretty_N_go x s) = (S k + String.length s)%nat.
Proof.
  revert x s. induction k as [|k IH]; intros x s [Hlo Hhi].
  - rewrite pretty_N_go_step by (simpl in Hlo; lia).
    replace (x `div` 10)%N with 0%N.
    + by rewrite pretty_N_go_0.
    + symmetry. apply N.div_small. simpl in Hhi. lia.
  - rewrite pretty_N_go_step.
    + rewrite IH; [simpl; lia|].
      rewrite !Nat2N.inj_succ, !N.pow_succ_r' in *. split.
      * apply N.div_le_lower_bound; lia.
      * apply N.Div0.div_lt_upper_bound. lia.
    + rewrite Nat2N.inj_succ, N.pow_succ_r' in Hlo.
      assert (0 < 10 ^ N.of_nat k)%N by (apply N.neq_0_lt_0, N.pow_nonzero; lia).
      lia.
Qed.

Lemma pretty_Z_length (k : nat) (z : Z) :
  10 ^ Z.of_nat k <= z < 10 ^ Z.of_nat (S k) ->
  String.length (pretty z) = S k.
Proof.
  intros [Hlo Hhi].
  assert (0 < z) by (pose proof (Z.pow_pos_nonneg 10 (Z.of_nat k)); lia).
  destruct z as [|p|p]; try lia.
  change (pretty (Z.pos p)) with (pretty (N.pos p)).
  unfold pretty, pretty_N. rewrite decide_False by done.
  rewrite (pretty_N_go_length k); [simpl; lia|].
  split; [apply N2Z.inj_le | apply N2Z.inj_lt];
    rewrite N2Z.inj_pow, nat_N_Z; simpl Z.of_N; assumption.
Qed.

(** X9. The confirmation number that the pre-save hook gives a confirmed
    booking is "CONF", the 13 digits of the clock and the random suffix;
    with a suffix of four characters or more it is longer than the 20
    characters the lookup route accepts, so that route answers
    "Validation failed" for it whatever the store holds. *)
Theorem generated_confirmation_rejected env b db :
  10 ^ 12 <= now env < 10 ^ 13 ->
  (4 <= String.length (random36 env 6))%nat ->
  Js.truthyStr (confirmationNumber b) = false ->
  bookingStatus b = "confirmed" ->
  exists c,
    confirmationNumber (BookingModel.preSave env b) = Some c
    /\ String.length c = (17 + String.length (random36 env 6))%nat
    /\ BookingRoutes.getByConfirmation db c
       = BookingQueries.FetchFailure 400 "Validation failed".
Proof.
  intros Hnow Hrnd Hc Hs.
  exists ("CONF" +:+ pretty (now env) +:+ random36 env 6).
  assert (Hlen : String.length ("CONF" +:+ pretty (now env)
                                +:+ random36 env 6)
                 = (17 + String.length (random36 env 6))%nat).
  { rewrite !string_length_app.
    rewrite (pretty_Z_length 12) by (simpl; lia). reflexivity. }
  split; [|split; [exact Hlen|]].
  - unfold BookingModel.preSave.
    destruct (Js.truthyStr (bookingId b)); simpl; rewrite Hc, Hs; reflexivity.
  - unfold BookingRoutes.getByConfirmation. rewrite Hlen.
    replace (_ <=? 20)%nat with false; [by rewrite andb_false_r|].
    symmetry. apply Nat.leb_gt. lia.
Qed.

Lemma generated_confirmation_rejected_witness :
  exists c,
    confirmationNumber
      (BookingModel.preSave Sample.env
         (set_bookingStatus "confirmed" Sample.pendingBooking)) = Some c
    /\ String.length c = 22%nat
    /\ BookingRoutes.getByConfirmation Sample.dbConfirmed c
       = BookingQueries.FetchFailure 400 "Validation failed".
Proof.
  destruct (generated_confirmation_rejected Sample.env
              (set_bookingStatus "confirmed" Sample.pendingBooking)
              Sample.dbConfirmed) as (c & H1 & H2 & H3).
  - split; zcmp.
  - vm_compute. lia.
  - vm_compute. reflexivity.
  - reflexivity.
  - exists c. split; [exact H1|]. split; [|exact H3].
    rewrite H2. vm_compute. reflexivity.
Defined.

Lemma findByConfirmation_Some c db b :
  BookingQueries.findByConfirmation c db = Some b ->
  b ∈ db /\ confirmationNumber b = Some c.
Proof.
  induction db as [|x db IH]; simpl; [discriminate|].
  destruct (bool_decide _) eqn:E.
  - intros [= <-]. apply bool_decide_eq_true in E. split; [left | done].
  - intros H. destruct (IH H). split; [by right | done].
Qed.

Lemma findByConfirmation_complete c db b :
  b ∈ db -> confirmationNumber b = Some c ->
  is_Some (BookingQueries.findByConfirmation c db).
Proof.
  induction 1 as [b db|b x db _ IH]; intros Hc; simpl.
  - rewrite bool_decide_eq_true_2 by done. eauto.
  - destruct (bool_decide _); [eauto | by apply IH].
Qed.

(** X10. In every reachable store a confirmed booking can be looked up:
    [getBookingByConfirmation] with its confirmation number answers with
    a stored booking that carries this number. *)
Theorem confirmed_fetchable db b :
  reachable db -> b ∈ db -> bookingStatus b = "confirmed" ->
  exists c b',
    confirmationNumber b = Some c
    /\ BookingQueries.getBookingByConfirmation db c
       = BookingQueries.Fetched b'
    /\ b' ∈ db /\ confirmationNumber b' = Some c.
Proof.
  intros Hreach Hin Hs.
  destruct (reachable_lifecycle_aux db b Hreach Hin) as (H1 & _).
  specialize (H1 Hs). unfold Js.truthyStr in H1.
  destruct (confirmationNumber b) as [c|] eqn:Hc; [|discriminate].
  destruct (findByConfirmation_complete c db b Hin Hc) as [b' Hb'].
  exists c, b'. split; [done|].
  unfold BookingQueries.getBookingByConfirmation. rewrite Hb'.
  split; [done|]. by apply findByConfirmation_Some.
Qed.

Lemma confirmed_fetchable_witness :
  exists b c b',
    b ∈ Sample.dbConfirmed
    /\ confirmationNumber b = Some c
    /\ BookingQueries.getBookingByConfirmation Sample.dbConfirmed c
       = BookingQueries.Fetched b'
    /\ confirmationNumber b' = Some c.
Proof.
  destruct sample_reachable as (_ & Hreach & _).
  assert (Hex : exists b, b ∈ Sample.dbConfirmed
                          /\ bookingStatus b = "confirmed")
    by (vm_compute; eexists; split; [left | reflexivity]).
  destruct Hex as (b & Hin & Hs).
  destruct (confirmed_fetchable Sample.dbConfirmed b Hreach Hin Hs)
    as (c & b' & H1 & H2 & _ & H4).
  exists b, c, b'. by repeat split.
Defined.

(** The controller answers 404 exactly when no stored booking carries the
    number. *)
Lemma getBookingByConfirmation_404 db c :
  BookingQueries.getBookingByConfirmation db c
  = BookingQueries.FetchFailure 404
      "Booking not found with this confirmation number"
  <-> forall b, b ∈ db -> confirmationNumber b <> Some c.
Proof.
  unfold BookingQueries.getBookingByConfirmation.
  destruct (BookingQueries.findByConfirmation c db) as [b|] eqn:E.
  - split; [discriminate|]. intros H.
    destruct (findByConfirmation_Some _ _ _ E) as [Hin Hc].
    by destruct (H b Hin).
  - split; [|done]. intros _ b Hin Hc.
    destruct (findByConfirmation_complete c db b Hin Hc) as [? H].
    congruence.
Qed.

(** ** Creating and fetching *)

Lemma freshId_above db b : b ∈ db -> (_id b < BookingModel.freshId db)%nat.
Proof.
  unfold BookingModel.freshId.
  induction 1 as [b db|b x db _ IH]; rewrite fmap_cons; cbn [foldr];
    [|revert IH];
    generalize (foldr Nat.max 0%nat (_id <$> db)); intros n; lia.
Qed.

Lemma findById_app_new db d :
  BookingModel.findById (_id d) db = None ->
  BookingModel.findById (_id d) (db ++ [d]) = Some d.
Proof.
  induction db as [|x db IH]; simpl.
  - by rewrite Nat.eqb_refl.
  - destruct (Nat.eqb (_id x) (_id d)); [discriminate | exact IH].
Qed.

Lemma findById_app_old db d id b :
  BookingModel.findById id db = Some b ->
  BookingModel.findById id (db ++ [d]) = Some b.
Proof.
  induction db as [|x db IH]; simpl; [discriminate|].
  destruct (Nat.eqb (_id x) id); [done | exact IH].
Qed.

Lemma findById_None db id :
  (forall b, b ∈ db -> _id b <> id) -> BookingModel.findById id db = None.
Proof.
  induction db as [|x db IH]; simpl; [done|]. intros H.
  destruct (Nat.eqb (_id x) id) eqn:E.
  - apply Nat.eqb_eq in E. destruct (H x); [left | done].
  - apply IH. intros b Hb. apply H. by right.
Qed.

(** X11. A booking that [createBooking] answers with can be fetched:
    [getBooking] with its [_id] returns that very document from the new
    store, and every booking that could be fetched before still is,
    unchanged. *)
Theorem created_booking_fetchable env rooms db body c m saved :
  fst (Controller.createBooking env rooms db body) = Success c m saved ->
  BookingQueries.getBooking
    (snd (Controller.createBooking env rooms db body)) (_id saved)
  = BookingQueries.Fetched saved
  /\ forall id b,
       BookingQueries.getBooking db id = BookingQueries.Fetched b ->
       BookingQueries.getBooking
         (snd (Controller.createBooking env rooms db body)) id
       = BookingQueries.Fetched b.
Proof.
  destruct (Controller.createBooking env rooms db body) as [r db'] eqn:E.
  simpl. intros ->.
  apply createBooking_Success_inv in E
    as (rd & _ & _ & _ & _ & _ & Hs & _ & ->).
  unfold BookingQueries.getBooking. split.
  - rewrite findById_app_new; [done|].
    apply findById_None. intros b Hb.
    pose proof (freshId_above db b Hb) as Hlt.
    presave env (Controller.newBooking env db body rd).
    rewrite Hs.
    replace (_id (BookingModel.preSave _ _)) with (BookingModel.freshId db)
      by (symmetry; assumption). lia.
  - intros id b.
    destruct (BookingModel.findById id db) as [x|] eqn:Hf; [|discriminate].
    intros [= ->]. by rewrite (findById_app_old _ _ _ _ Hf).
Qed.

Lemma created_booking_fetchable_witness :
  exists saved,
    fst (Controller.createBooking Sample.env2 Sample.rooms
           Sample.dbConfirmed (Sample.stay (Sample.aug 3) (Sample.aug 5) 2))
    = Success 201 "Booking created successfully" saved
    /\ BookingQueries.getBooking
         (snd (Controller.createBooking Sample.env2 Sample.rooms
                 Sample.dbConfirmed
                 (Sample.stay (Sample.aug 3) (Sample.aug 5) 2))) (_id saved)
       = BookingQueries.Fetched saved.
Proof.
  pose proof (fun c m saved =>
    created_booking_fetchable Sample.env2 Sample.rooms Sample.dbConfirmed
      (Sample.stay (Sample.aug 3) (Sample.aug 5) 2) c m saved) as H.
  edestruct H as [Hget _]; [vm_compute; reflexivity|].
  eexists. split; [|exact Hget]. vm_compute. reflexivity.
Defined.

(** ** Behind the routes *)

Lemma updateBookingStatus_success env db id b status notes :
  BookingModel.findById id db = Some b ->
  status ∈ ["pending"; "confirmed"; "checked_in"; "checked_out";
            "cancelled"; "no_show"] ->
  exists saved,
    fst (Controller.updateBookingStatus env db id
           (mkStatusBody (Some status) notes))
    = Success 200 "Booking status updated successfully" saved
    /\ bookingStatus saved = status.
Proof.
  intros Hfind Hin. unfold Controller.updateBookingStatus. simpl.
  rewrite bool_decide_eq_true_2 by exact Hin. simpl. rewrite Hfind.
  unfold BookingModel.save.
  match goal with
  | |- context [BookingModel.preSave env ?x] => set (b4 := x)
  end.
  exists (BookingModel.preSave env b4). presave env b4.
  split; [reflexivity|].
  replace (bookingStatus (BookingModel.preSave env b4))
    with (bookingStatus b4) by (symmetry; assumption).
  subst b4.
  repeat match goal with
         | |- context [if ?c then _ else _] => destruct c
         end; reflexivity.
Qed.

(** X12. Behind the validation of the status route the controller's own
    status check never fires: the route answers "Validation failed",
    "Booking not found", or 200 with a booking that carries the requested
    status. *)
Theorem patchStatus_outcomes env db id body :
  fst (Routes.patchStatus env db id body) = Failure 400 "Validation failed"
  \/ fst (Routes.patchStatus env db id body)
     = Failure 404 "Booking not found"
  \/ exists saved,
       fst (Routes.patchStatus env db id body)
       = Success 200 "Booking status updated successfully" saved
       /\ Some (bookingStatus saved) = sb_status body.
Proof.
  unfold Routes.patchStatus, Routes.handleValidationErrors.
  destruct (sb_status body) as [status|] eqn:Hs; simpl; [|by left].
  destruct (bool_decide (status ∈ _)) eqn:Hin; simpl; [|by left].
  destruct (Routes.optionalLength 0 500 (sb_notes body)); [|by left].
  apply bool_decide_eq_true in Hin.
  destruct (BookingModel.findById id db) as [b|] eqn:Hf.
  - right. right.
    destruct (updateBookingStatus_success env db id b status
                (Js.trim <$> sb_notes body) Hf Hin) as (saved & H1 & H2).
    exists saved. split; [exact H1 | by rewrite H2].
  - right. left. unfold Controller.updateBookingStatus. simpl.
    rewrite bool_decide_eq_true_2 by exact Hin. simpl. by rewrite Hf.
Qed.

(** X13. A cancellation that the cancel route lets through and the
    controller accepts stores the status [cancelled], the time of the
    request and a refund amount that is not negative: the amount of the
    body, or 0 when the body has none. *)
Theorem patchCancel_refund env db id body c m saved :
  fst (BookingRoutes.patchCancel env db id body) = Success c m saved ->
  bookingStatus saved = "cancelled"
  /\ cancellation saved !! "cancelledAt" = Some (JDate (now env))
  /\ exists q,
       cancellation saved !! "refundAmount" = Some (JNum q)
       /\ (0 <= q)%Q
       /\ (forall r, BookingRoutes.cr_refundAmount body = Some r -> (q == r)%Q)
       /\ (BookingRoutes.cr_refundAmount body = None -> (q == 0)%Q).
Proof.
  unfold BookingRoutes.patchCancel, Routes.handleValidationErrors.
  destruct (_ && _) eqn:Hok; [|discriminate].
  apply andb_true_iff in Hok as [Hok _].
  apply andb_true_iff in Hok as [Hok _].
  apply andb_true_iff in Hok as [_ Hr].
  set (cb := mkCancelBody _ _).
  intros Hs.
  destruct (BookingModel.findById id db) as [b|] eqn:Hf;
    [|unfold Controller.cancelBooking in Hs; by rewrite Hf in Hs].
  destruct (String.eqb (bookingStatus b) "cancelled") eqn:E1;
    [unfold Controller.cancelBooking in Hs; by rewrite Hf, E1 in Hs|].
  destruct (String.eqb (bookingStatus b) "checked_out") eqn:E2;
    [unfold Controller.cancelBooking in Hs; by rewrite Hf, E1, E2 in Hs|].
  apply String.eqb_neq in E1, E2.
  destruct (cancelBooking_effect env db id b cb Hf E1 E2)
    as (s & Heq & _ & Hst & Hat & Hamt & _).
  rewrite Heq in Hs. injection Hs as _ _ <-.
  split; [exact Hst|]. split; [exact Hat|].
  exists (Js.orNum (cb_refundAmount cb) 0). split; [exact Hamt|].
  subst cb. simpl. destruct (BookingRoutes.cr_refundAmount body) as [r|]; simpl.
  - apply Qle_bool_iff in Hr.
    destruct (Qeq_bool r 0) eqn:E; [apply Qeq_bool_iff in E|].
    + split; [apply Qle_refl|]. split; [|discriminate].
      intros ? [= <-]. by symmetry.
    + split; [exact Hr|]. split; [|discriminate].
      intros ? [= <-]. reflexivity.
  - split; [apply Qle_refl|]. split; [discriminate | reflexivity].
Qed.

Lemma patchCancel_refund_witness :
  exists saved q,
    fst (BookingRoutes.patchCancel Sample.env2 Sample.dbConfirmed 1%nat
           (BookingRoutes.mkCancelRequest (Some "  Change of plans ")
              (Some (50 # 1)) None None))
    = Success 200 "Booking cancelled successfully" saved
    /\ bookingStatus saved = "cancelled"
    /\ cancellation saved !! "refundAmount" = Some (JNum q)
    /\ (q == 50)%Q.
Proof.
  pose proof (fun c m saved =>
    patchCancel_refund Sample.env2 Sample.dbConfirmed 1%nat
      (BookingRoutes.mkCancelRequest (Some "  Change of plans ")
         (Some (50 # 1)) None None) c m saved) as H.
  edestruct H as (Hs & _ & q & Hq & _ & Hr & _); [vm_compute; reflexivity|].
  do 2 eexists. split; [vm_compute; reflexivity|].
  split; [exact Hs|]. split; [exact Hq|]. by apply Hr.
Defined.

(** ** What the availability queries answer *)

Lemma getRoomAvailability_iff_witness :
  exists a n,
    getRoomAvailability Sample.rooms Sample.dbCheckedIn 1%nat
      (Some (Sample.aug 3)) (Some (Sample.aug 5)) = Availability a n
    /\ (a = true <->
        isAvailable Sample.roomA = true
        /\ ~ conflicting Sample.dbCheckedIn 1%nat
               (Sample.aug 3) (Sample.aug 5)).
Proof.
  destruct sample_reachable as (_ & _ & Hreach & _).
  apply (getRoomAvailability_iff Sample.rooms Sample.dbCheckedIn 1%nat
           (Sample.aug 3) (Sample.aug 5) Sample.roomA Hreach);
    [reflexivity | zcmp].
Defined.

Lemma checkRoomAvailability_iff_witness :
  checkRoomAvailability Sample.dbConfirmed 1%nat
    (Sample.aug 2) (Sample.aug 4) (Some 1%nat) = true
  <-> ~ exists b, b ∈ Sample.dbConfirmed /\ room b = 1%nat
                  /\ bookingStatus b = "confirmed"
                  /\ intersects (checkInDate b) (checkOutDate b)
                       (Sample.aug 2) (Sample.aug 4)
                  /\ Some 1%nat <> Some (_id b).
Proof.
  destruct sample_reachable as (_ & Hreach & _).
  apply (checkRoomAvailability_iff Sample.dbConfirmed 1%nat
           (Sample.aug 2) (Sample.aug 4) (Some 1%nat) Hreach). zcmp.
Defined.

(** ** Deleting a room *)

Lemma rooms_findById_In id rooms r :
  RoomModel.findById id rooms = Some r -> roomId r = id /\ r ∈ rooms.
Proof.
  induction rooms as [|x rooms IH]; simpl; [discriminate|].
  destruct (Nat.eqb (roomId x) id) eqn:E.
  - intros [= <-]. apply Nat.eqb_eq in E. split; [done | left].
  - intros H. destruct (IH H). split; [done | by right].
Qed.

Lemma rooms_findById_None id rooms :
  id ∉ roomId <$> rooms -> RoomModel.findById id rooms = None.
Proof.
  induction rooms as [|x rooms IH]; [done|].
  rewrite fmap_cons, not_elem_of_cons. intros [Hne Hnin]. simpl.
  destruct (Nat.eqb (roomId x) id) eqn:E;
    [apply Nat.eqb_eq in E; congruence | by apply IH].
Qed.

(** X14. [deleteRoom] on an existing room deletes it exactly when no
    confirmed or checked-in booking of the room checks out now or later;
    pending, cancelled, no-show and checked-out bookings, and stays that
    are over, do not hold a room.  A refusal leaves the rooms as they
    are. *)
Theorem deleteRoom_iff env rooms db id r :
  RoomModel.findById id rooms = Some r ->
  (fst (RoomController.deleteRoom env rooms db id)
   = RoomController.RoomDone 200 "Room deleted successfully"
   <-> forall b, b ∈ db -> room b = id -> blocking b ->
                 checkOutDate b < now env)
  /\ (fst (RoomController.deleteRoom env rooms db id)
      = RoomController.RoomDone 200 "Room deleted successfully"
      \/ RoomController.deleteRoom env rooms db id
         = (RoomController.RoomFailure 400
              "Cannot delete room with active bookings", rooms)).
Proof.
  intros Hr. unfold RoomController.deleteRoom. rewrite Hr.
  rewrite filter_nonempty.
  destruct (existsb _ db) eqn:E; simpl.
  - split; [|by right]. split; [discriminate|]. intros H.
    apply existsb_exists in E as (b & Hin & Hb).
    apply list_elem_of_In in Hin.
    unfold RoomController.activeBooking in Hb.
    rewrite !andb_true_iff, Nat.eqb_eq, bool_decide_eq_true, Z.leb_le in Hb.
    destruct Hb as [[Hroom Hst] Hout].
    rewrite !elem_of_cons, elem_of_nil in Hst.
    assert (Hbl : blocking b) by (unfold blocking; tauto).
    specialize (H b Hin Hroom Hbl). lia.
  - split; [|by left]. split; [|done]. intros _ b Hin Hroom Hbl.
    destruct (Z.lt_ge_cases (checkOutDate b) (now env)) as [|Hge]; [done|].
    apply not_true_iff_false in E. destruct E.
    apply existsb_exists. exists b. split; [by apply list_elem_of_In|].
    unfold RoomController.activeBooking.
    rewrite !andb_true_iff, Nat.eqb_eq, bool_decide_eq_true, Z.leb_le.
    rewrite !elem_of_cons, elem_of_nil. unfold blocking in Hbl. tauto.
Qed.

(** Room 1 of the sample has only a pending booking: it can be deleted. *)
Lemma deleteRoom_iff_witness :
  fst (RoomController.deleteRoom Sample.env2 Sample.rooms Sample.db1 1%nat)
  = RoomController.RoomDone 200 "Room deleted successfully"
  <-> forall b, b ∈ Sample.db1 -> room b = 1%nat -> blocking b ->
                checkOutDate b < now Sample.env2.
Proof.
  apply (deleteRoom_iff Sample.env2 Sample.rooms Sample.db1 1%nat
           Sample.roomA). reflexivity.
Defined.

(** X15. Once [deleteRoom] has deleted a room whose [_id] is unique, the
    room cannot be fetched, every other room is as before, and every
    validated booking request for it is answered "Room not found" and
    stores nothing; the bookings that reference the room are not
    touched. *)
Theorem deleteRoom_gone env rooms db id c m :
  NoDup (roomId <$> rooms) ->
  fst (RoomController.deleteRoom env rooms db id)
  = RoomController.RoomDone c m ->
  let rooms' := snd (RoomController.deleteRoom env rooms db id) in
  RoomController.getRoom rooms' id
  = RoomController.RoomFailure 404 "Room not found"
  /\ (forall id', id' <> id ->
        RoomController.getRoom rooms' id' = RoomController.getRoom rooms id')
  /\ (forall env' db' body,
        validationOk body = true -> body_room body = id ->
        Controller.createBooking env' rooms' db' body
        = (Failure 404 "Room not found", db')).
Proof.
  intros Hnd Hok. unfold RoomController.deleteRoom in *.
  destruct (RoomModel.findById id rooms) as [r|] eqn:Hr; [|discriminate].
  destruct (0 <? _)%nat; [discriminate|]. simpl. clear Hok.
  assert (Hgone : RoomModel.findById id
                    (RoomController.findByIdAndDelete id rooms) = None).
  { clear Hr. induction rooms as [|x rooms IH]; [done|].
    rewrite fmap_cons in Hnd. apply NoDup_cons in Hnd as [Hx Hnd]. simpl.
    destruct (Nat.eqb (roomId x) id) eqn:E.
    - apply Nat.eqb_eq in E. apply rooms_findById_None. congruence.
    - simpl. rewrite E. by apply IH. }
  assert (Hother : forall id', id' <> id ->
            RoomModel.findById id'
              (RoomController.findByIdAndDelete id rooms)
            = RoomModel.findById id' rooms).
  { intros id' Hne. clear Hr Hgone Hnd.
    induction rooms as [|x rooms IH]; simpl; [done|].
    destruct (Nat.eqb (roomId x) id) eqn:E; simpl.
    - apply Nat.eqb_eq in E.
      destruct (Nat.eqb (roomId x) id') eqn:E';
        [apply Nat.eqb_eq in E'; congruence | done].
    - destruct (Nat.eqb (roomId x) id'); [done | exact IH]. }
  unfold RoomController.getRoom. split; [by rewrite Hgone|].
  split; [intros id' Hne; by rewrite Hother|].
  intros env' db' body Hv <-. unfold Controller.createBooking.
  by rewrite Hv, Hgone.
Qed.

Lemma deleteRoom_gone_witness :
  RoomController.getRoom
    (snd (RoomController.deleteRoom Sample.env2 Sample.rooms Sample.db1
            1%nat)) 1%nat
  = RoomController.RoomFailure 404 "Room not found"
  /\ Controller.createBooking Sample.env2
       (snd (RoomController.deleteRoom Sample.env2 Sample.rooms Sample.db1
               1%nat)) Sample.db1
       (Sample.stay (Sample.aug 3) (Sample.aug 5) 2)
     = (Failure 404 "Room not found", Sample.db1).
Proof.
  pose proof (fun c m =>
    deleteRoom_gone Sample.env2 Sample.rooms Sample.db1 1%nat c m) as H.
  edestruct H as (H1 & _ & H3).
  - apply (bool_decide_unpack _). vm_compute. exact I.
  - vm_compute. reflexivity.
  - split; [exact H1|]. apply H3; reflexivity.
Defined.

(** ** Pagination *)

(** X16. [getPagination] on parsed arguments and a positive [maxLimit]
    returns a page of at least 1, a limit between 1 and [maxLimit] and the
    non-negative offset [(page - 1) * limit]; arguments within these
    bounds come back as they are, and a [NaN] argument makes the offset
    [NaN]. *)
Theorem getPagination_bounds (page limit maxLimit : Z) :
  1 <= maxLimit ->
  exists p l,
    ApiHelpers.getPagination (Some page) (Some limit) maxLimit
    = ApiHelpers.mkPagination (Some p) (Some l) (Some ((p - 1) * l))
    /\ 1 <= p /\ 1 <= l <= maxLimit /\ 0 <= (p - 1) * l
    /\ (1 <= page -> p = page)
    /\ (1 <= limit <= maxLimit -> l = limit)
    /\ (maxLimit < limit -> l = maxLimit)
    /\ ApiHelpers.pg_skip (ApiHelpers.getPagination None (Some limit) maxLimit)
       = None
    /\ ApiHelpers.pg_skip (ApiHelpers.getPagination (Some page) None maxLimit)
       = None.
Proof.
  intros Hmax. exists (Z.max 1 page), (Z.min maxLimit (Z.max 1 limit)).
  split; [reflexivity|]. repeat split; try lia. nia.
Qed.

Lemma getPagination_bounds_witness :
  exists p l,
    ApiHelpers.getPagination (Some (-3)) (Some 250) 100
    = ApiHelpers.mkPagination (Some p) (Some l) (Some ((p - 1) * l))
    /\ 1 <= p /\ 1 <= l <= 100.
Proof.
  destruct (getPagination_bounds (-3) 250 100) as (p & l & H1 & H2 & H3 & _).
  - lia.
  - exists p, l. auto.
Defined.

(** X17. For a limit of at least 1 and a non-negative total,
    [getPaginationMeta] reports a next page exactly when items remain
    after the current page, a previous page exactly from page 2 on, and
    a number of pages that is the least one holding all items. *)
Theorem getPaginationMeta_pages (page limit total : Z) :
  1 <= limit -> 0 <= total ->
  let meta := ApiHelpers.getPaginationMeta page limit total in
  (ApiHelpers.hasNextPage meta = true <-> page * limit < total)
  /\ (ApiHelpers.nextPage meta
      = if ApiHelpers.hasNextPage meta then Some (page + 1) else None)
  /\ (ApiHelpers.hasPrevPage meta = true <-> 1 < page)
  /\ (ApiHelpers.prevPage meta
      = if ApiHelpers.hasPrevPage meta then Some (page - 1) else None)
  /\ (ApiHelpers.totalPages meta - 1) * limit < total
     <= ApiHelpers.totalPages meta * limit
  /\ (ApiHelpers.totalPages meta = 0 <-> total = 0).
Proof.
  intros Hl Ht. simpl.
  pose proof (ceilDiv_bounds total limit ltac:(lia)) as Hb.
  rewrite !Z.ltb_lt. repeat split; try lia; try nia.
Qed.

Lemma getPaginationMeta_pages_witness :
  ApiHelpers.hasNextPage (ApiHelpers.getPaginationMeta 2 10 25) = true
  /\ ApiHelpers.totalPages (ApiHelpers.getPaginationMeta 2 10 25) = 3
  /\ ApiHelpers.hasNextPage (ApiHelpers.getPaginationMeta 3 10 25) = false.
Proof.
  destruct (getPaginationMeta_pages 2 10 25) as (H1 & _); [lia | lia|].
  destruct (getPaginationMeta_pages 3 10 25) as (H2 & _); [lia | lia|].
  split; [apply H1; lia|]. split; [reflexivity|].
  apply not_true_iff_false. intros H. apply H2 in H. lia.
Defined.

(** ** Day counts and date ranges *)

Lemma calculateDaysDifference_spec_aux (s e : Z) :
  (ApiHelpers.calculateDaysDifference s e = 0 <-> s = e)
  /\ (ApiHelpers.calculateDaysDifference s e - 1) * msPerDay
     < Z.abs (e - s)
     <= ApiHelpers.calculateDaysDifference s e * msPerDay.
Proof.
  unfold ApiHelpers.calculateDaysDifference.
  pose proof (ceilDiv_bounds (Z.abs (e - s)) msPerDay ltac:(reflexivity))
    as Hb.
  split; [|exact Hb]. unfold msPerDay in *. lia.
Qed.

(** X18. [calculateDaysDifference] does not depend on the order of its
    two dates, is 0 exactly for equal dates, and is otherwise the least
    number of whole days that covers the distance. *)
Theorem calculateDaysDifference_spec (s e : Z) :
  ApiHelpers.calculateDaysDifference s e
  = ApiHelpers.calculateDaysDifference e s
  /\ (ApiHelpers.calculateDaysDifference s e = 0 <-> s = e)
  /\ (ApiHelpers.calculateDaysDifference s e - 1) * msPerDay
     < Z.abs (e - s)
     <= ApiHelpers.calculateDaysDifference s e * msPerDay.
Proof.
  unfold ApiHelpers.calculateDaysDifference.
  pose proof (ceilDiv_bounds (Z.abs (e - s)) msPerDay ltac:(reflexivity))
    as Hb.
  replace (Z.abs (s - e)) with (Z.abs (e - s)) by lia.
  split; [reflexivity|]. split; [|exact Hb].
  unfold msPerDay in *. lia.
Qed.

Lemma validateDateRange_cases env s e minDays maxDays :
  ApiHelpers.validateDateRange env (Some s) (Some e) minDays maxDays =
    if s <? now env then
      ApiHelpers.RangeInvalid "Check-in date must be in the future"
    else if e <=? s then
      ApiHelpers.RangeInvalid "Check-out date must be after check-in date"
    else if ApiHelpers.calculateDaysDifference s e <? minDays then
      ApiHelpers.RangeInvalid
        ("Minimum stay is " +:+ pretty minDays +:+ " day(s)")
    else if maxDays <? ApiHelpers.calculateDaysDifference s e then
      ApiHelpers.RangeInvalid
        ("Maximum stay is " +:+ pretty maxDays +:+ " days")
    else ApiHelpers.RangeValid (ApiHelpers.calculateDaysDifference s e).
Proof. reflexivity. Qed.

(** X19. [validateDateRange] accepts a range exactly when both dates
    parse, the start is not before now, the end is after the start and
    the number of days, which it returns, lies within the two bounds. *)
Theorem validateDateRange_valid_iff env startDate endDate minDays maxDays d :
  ApiHelpers.validateDateRange env startDate endDate minDays maxDays
  = ApiHelpers.RangeValid d
  <-> exists s e,
        startDate = Some s /\ endDate = Some e
        /\ now env <= s /\ s < e
        /\ d = ApiHelpers.calculateDaysDifference s e
        /\ minDays <= d <= maxDays.
Proof.
  split.
  - destruct startDate as [s|], endDate as [e|]; try discriminate.
    rewrite validateDateRange_cases.
    destruct (s <? now env) eqn:E1; [discriminate|].
    destruct (e <=? s) eqn:E2; [discriminate|].
    destruct (_ <? minDays) eqn:E3; [discriminate|].
    destruct (maxDays <? _) eqn:E4; [discriminate|].
    intros [= <-]. exists s, e.
    apply Z.ltb_ge in E1, E3, E4. apply Z.leb_gt in E2.
    repeat split; auto.
  - intros (s & e & -> & -> & H1 & H2 & -> & H3 & H4).
    rewrite validateDateRange_cases.
    rewrite (proj2 (Z.ltb_ge _ _)) by lia.
    rewrite (proj2 (Z.leb_gt _ _)) by lia.
    rewrite (proj2 (Z.ltb_ge _ _)) by lia.
    by rewrite (proj2 (Z.ltb_ge _ _)) by lia.
Qed.

Lemma validateDateRange_valid_iff_witness :
  ApiHelpers.validateDateRange Sample.env
    (Some (Sample.aug 1)) (Some (Sample.aug 3)) 1 365
  = ApiHelpers.RangeValid 2.
Proof.
  apply validateDateRange_valid_iff.
  exists (Sample.aug 1), (Sample.aug 3).
  repeat split; zcmp.
Defined.

(** X20. With the default minimum of one day, or any smaller one, the
    minimum-stay rejection of [validateDateRange] is dead: a range that
    passes the two date checks already lasts a day. *)
Theorem validateDateRange_minimum_dead env startDate endDate minDays maxDays :
  minDays <= 1 ->
  ApiHelpers.validateDateRange env startDate endDate minDays maxDays
  <> ApiHelpers.RangeInvalid
       ("Minimum stay is " +:+ pretty minDays +:+ " day(s)").
Proof.
  intros Hmin.
  destruct startDate as [s|], endDate as [e|]; try discriminate.
  rewrite validateDateRange_cases.
  destruct (s <? now env); [discriminate|].
  destruct (e <=? s) eqn:E2; [discriminate|].
  destruct (_ <? minDays) eqn:E3.
  - apply Z.leb_gt in E2. apply Z.ltb_lt in E3.
    destruct (calculateDaysDifference_spec_aux s e) as [_ Hb].
    unfold msPerDay in Hb. lia.
  - destruct (maxDays <? _); simpl; discriminate.
Qed.

Lemma validateDateRange_minimum_dead_witness :
  ApiHelpers.validateDateRange Sample.env
    (Some (Sample.aug 1)) (Some (Sample.aug 1 + 1)) 1 365
  <> ApiHelpers.RangeInvalid ("Minimum stay is " +:+ pretty 1 +:+ " day(s)").
Proof.
  apply (validateDateRange_minimum_dead Sample.env
           (Some (Sample.aug 1)) (Some (Sample.aug 1 + 1)) 1 365). lia.
Defined.

(** ** The pricing helper *)




(** ** Listing bookings *)

Lemma filter_all_false {A} (f : A -> bool) (l : list A) :
  Forall (fun x => f x = false) l -> List.filter f l = [].
Proof.
  induction 1 as [|x l Hx _ IH]; simpl; [done|]. by rewrite Hx.
Qed.

(** X22. On every reachable store the listing filtered by a payment
    status is empty, whatever the status asked for: the filter tests the
    key [paymentInfo.status], which no stored booking has.  Total, page
    count and data are 0, 0 and the empty list. *)
Theorem getBookings_paymentStatus_empty regexTest sortBy roomTypeOf db q p :
  reachable db ->
  (forall s, sortBy s [] = []) ->
  BookingQueries.q_paymentStatus q = Some p -> p <> "" ->
  let page := BookingQueries.getBookings regexTest sortBy roomTypeOf db q in
  BookingQueries.bp_total page = 0%nat
  /\ BookingQueries.bp_count page = 0%nat
  /\ BookingQueries.bp_pages page = 0
  /\ BookingQueries.bp_data page = [].
Proof.
  intros Hreach Hsort Hq Hp.
  assert (Hnone : List.filter (BookingQueries.bookingsFilter regexTest q) db
                  = []).
  { apply filter_all_false, Forall_forall. intros b Hin.
    destruct (reachable_payment_pending_aux db b Hreach Hin) as [_ Hs].
    unfold BookingQueries.bookingsFilter. rewrite Hq, Hs. simpl.
    apply String.eqb_neq in Hp. rewrite Hp. simpl.
    by rewrite andb_false_r. }
  unfold BookingQueries.getBookings. simpl. rewrite Hnone, Hsort.
  rewrite drop_nil, take_nil.
  repeat split; simpl;
    destruct (BookingQueries.q_roomType q) as [ty|];
    try destruct (Js.truthyStr (Some ty)); reflexivity.
Qed.

Lemma getBookings_paymentStatus_empty_witness :
  BookingQueries.bp_total
    (BookingQueries.getBookings (fun _ _ => true) (fun _ l => l)
       (fun _ => Some "deluxe") Sample.dbConfirmed
       (BookingQueries.mkBookingsQuery None (Some "pending") None None None
          None 1 20 "-createdAt")) = 0%nat.
Proof.
  destruct sample_reachable as (_ & Hreach & _).
  apply (getBookings_paymentStatus_empty (fun _ _ => true) (fun _ l => l)
           (fun _ => Some "deluxe") Sample.dbConfirmed
           (BookingQueries.mkBookingsQuery None (Some "pending") None None
              None None 1 20 "-createdAt") "pending" Hreach);
    [reflexivity | reflexivity | discriminate].
Defined.

(** X23. With a sort that neither drops nor adds documents, a page of the
    listing holds at most [limit] bookings and no more than match; without
    a room type it holds exactly the matching bookings left after the
    skipped pages, up to [limit]; and [pages] is the least number of pages
    that holds all matches. *)
Theorem getBookings_page_size regexTest sortBy roomTypeOf db q :
  (forall s l, length (sortBy s l) = length l) ->
  let page := BookingQueries.getBookings regexTest sortBy roomTypeOf db q in
  let limit := Pos.to_nat (BookingQueries.q_limit q) in
  let skip := ((Pos.to_nat (BookingQueries.q_page q) - 1) * limit)%nat in
  BookingQueries.bp_count page = length (BookingQueries.bp_data page)
  /\ (BookingQueries.bp_count page <= limit)%nat
  /\ (BookingQueries.bp_count page <= BookingQueries.bp_total page - skip)%nat
  /\ (BookingQueries.q_roomType q = None ->
      BookingQueries.bp_count page
      = Nat.min limit (BookingQueries.bp_total page - skip))
  /\ (BookingQueries.bp_pages page - 1) * Z.of_nat limit
     < Z.of_nat (BookingQueries.bp_total page)
     <= BookingQueries.bp_pages page * Z.of_nat limit.
Proof.
  intros Hsort. unfold BookingQueries.getBookings. cbv zeta.
  cbn [BookingQueries.bp_count BookingQueries.bp_data
       BookingQueries.bp_total BookingQueries.bp_pages].
  set (matches := List.filter (BookingQueries.bookingsFilter regexTest q) db).
  set (limit := Pos.to_nat (BookingQueries.q_limit q)).
  set (skip := ((Pos.to_nat (BookingQueries.q_page q) - 1) * limit)%nat).
  assert (Hl : Z.to_nat (Z.pos (BookingQueries.q_limit q)) = limit)
    by (subst limit; lia).
  assert (Hs : Z.to_nat ((Z.pos (BookingQueries.q_page q) - 1)
                         * Z.pos (BookingQueries.q_limit q)) = skip)
    by (subst skip limit; rewrite Z2Nat.inj_mul by lia; f_equal; lia).
  rewrite Hl, Hs.
  set (bookings := take limit (drop skip (sortBy _ matches))).
  assert (Hb : length bookings = Nat.min limit (length matches - skip)).
  { subst bookings. by rewrite length_take, length_drop, Hsort. }
  set (data := match BookingQueries.q_roomType q with
               | Some ty => _ | None => bookings end).
  assert (Hd : (length data <= length bookings)%nat).
  { subst data. destruct (BookingQueries.q_roomType q) as [ty|]; [|done].
    destruct (Js.truthyStr _); [apply filter_length_le | done]. }
  split; [reflexivity|]. split; [lia|]. split; [lia|]. split.
  - intros Hnone. subst data. by rewrite Hnone.
  - pose proof (ceilDiv_bounds (Z.of_nat (length matches))
                  (Z.pos (BookingQueries.q_limit q)) ltac:(lia)) as Hc.
    replace (Z.of_nat limit) with (Z.pos (BookingQueries.q_limit q))
      by (subst limit; lia).
    exact Hc.
Qed.

Lemma getBookings_page_size_witness :
  BookingQueries.bp_count
    (BookingQueries.getBookings (fun _ _ => true) (fun _ l => l)
       (fun _ => Some "deluxe") Sample.dbTwice
       (BookingQueries.mkBookingsQuery (Some "pending") None None None None
          None 2 1 "-createdAt")) = 1%nat.
Proof.
  destruct (getBookings_page_size (fun _ _ => true) (fun _ l => l)
              (fun _ => Some "deluxe") Sample.dbTwice
              (BookingQueries.mkBookingsQuery (Some "pending") None None
                 None None None 2 1 "-createdAt"))
    as (_ & _ & _ & H & _); [reflexivity|].
  rewrite H by reflexivity. vm_compute. reflexivity.
Defined.

(** ** Saving again *)

Lemma preSave_fixpoint env s :
  Js.truthyStr (bookingId s) = true ->
  (bookingStatus s = "confirmed" ->
     Js.truthyStr (confirmationNumber s) = true) ->
  numberOfNights s = duration s ->
  BookingModel.preSave env s = s.
Proof.
  intros Hid Hc Hn. unfold BookingModel.preSave. rewrite Hid.
  assert (Hcond : negb (Js.truthyStr (confirmationNumber s))
                  && String.eqb (bookingStatus s) "confirmed" = false).
  { destruct (String.eqb (bookingStatus s) "confirmed") eqn:E;
      [|by rewrite andb_false_r].
    apply String.eqb_eq in E. by rewrite (Hc E). }
  rewrite Hcond. unfold duration in Hn. rewrite <- Hn.
  by destruct s.
Qed.

(** X24. The pre-save hook changes nothing the second time: saving a
    document that was just saved, at any later time and with any random
    draw, gives the same document. *)
Theorem preSave_idempotent env env' b :
  BookingModel.preSave env' (BookingModel.preSave env b)
  = BookingModel.preSave env b.
Proof.
  destruct (preSave_more env b) as (_ & _ & _ & _ & Hid & _ & Hc & _ & Hn).
  presave env b.
  apply preSave_fixpoint; [exact Hid | | exact Hn].
  intros Hs. apply Hc. congruence.
Qed.

(** ** Generated identifiers *)

Lemma string_app_assoc (a b c : string) : (a +:+ b) +:+ c = a +:+ (b +:+ c).
Proof.
  induction a as [|x a IH]; [reflexivity|].
  change (String x ((a +:+ b) +:+ c) = String x (a +:+ (b +:+ c))).
  by rewrite IH.
Qed.

Lemma string_get_lt (s : string) (n : nat) :
  (n < String.length s)%nat -> exists c, String.get n s = Some c.
Proof.
  revert n. induction s as [|x s IH]; intros n Hn; simpl in *; [lia|].
  destruct n as [|n]; [eauto|]. apply IH. lia.
Qed.

Lemma string_app_nil_r (a : string) : a +:+ "" = a.
Proof.
  induction a as [|x a IH]; [reflexivity|].
  change (String x (a +:+ "") = String x a). by rewrite IH.
Qed.

Lemma generateUniqueId_loop_spec draw i n result :
  (forall j, (draw j < 36)%nat) ->
  exists suffix,
    ApiHelpers.generateUniqueId_loop draw i n result = result +:+ suffix
    /\ String.length suffix = n
    /\ forall k c, String.get k suffix = Some c ->
         exists j, String.get j ApiHelpers.idChars = Some c.
Proof.
  intros Hdraw. revert i result.
  induction n as [|n IH]; intros i result.
  - exists "". split; [|split; [done|]].
    + cbn [ApiHelpers.generateUniqueId_loop]. by rewrite string_app_nil_r.
    + intros k c. by destruct k.
  - destruct (IH (S i) (result +:+ ApiHelpers.charAt ApiHelpers.idChars
                                     (draw i)))
      as (suffix & Heq & Hlen & Hchars).
    destruct (string_get_lt ApiHelpers.idChars (draw i)) as [c Hc];
      [apply Hdraw|].
    assert (Hch : ApiHelpers.charAt ApiHelpers.idChars (draw i)
                  = String c "")
      by (unfold ApiHelpers.charAt; by rewrite Hc).
    exists (String c suffix). split; [|split].
    + cbn [ApiHelpers.generateUniqueId_loop].
      rewrite Heq, Hch, string_app_assoc. reflexivity.
    + cbn [String.length]. by rewrite Hlen.
    + intros k c'. destruct k as [|k]; cbn [String.get].
      * intros [= <-]. eauto.
      * apply Hchars.
Qed.

(** X25. [generateUniqueId] returns the prefix followed by exactly
    [length] characters, each one of the 36 capital letters and digits,
    provided every random draw is an index into that alphabet. *)
Theorem generateUniqueId_spec draw prefix n :
  (forall j, (draw j < 36)%nat) ->
  exists suffix,
    ApiHelpers.generateUniqueId draw prefix n = prefix +:+ suffix
    /\ String.length suffix = n
    /\ String.length (ApiHelpers.generateUniqueId draw prefix n)
       = (String.length prefix + n)%nat
    /\ forall k c, String.get k suffix = Some c ->
         exists j, String.get j ApiHelpers.idChars = Some c.
Proof.
  intros Hdraw.
  destruct (generateUniqueId_loop_spec draw 0 n prefix Hdraw)
    as (suffix & Heq & Hlen & Hchars).
  exists suffix. unfold ApiHelpers.generateUniqueId.
  rewrite Heq, string_length_app, Hlen. auto.
Qed.

Lemma generateUniqueId_spec_witness :
  exists suffix,
    ApiHelpers.generateUniqueId (fun i => (7 * i + 3) mod 36)%nat "BK" 8
    = "BK" +:+ suffix
    /\ String.length suffix = 8%nat.
Proof.
  destruct (generateUniqueId_spec (fun i => (7 * i + 3) mod 36)%nat "BK" 8)
    as (suffix & H1 & H2 & _).
  - intros j. apply Nat.mod_upper_bound. lia.
  - exists suffix. auto.
Defined.

(** ** Confirmation numbers of the helper *)

Lemma substring_length (s : string) (n m : nat) :
  String.length (String.substring n m s)
  = Nat.min m (String.length s - n).
Proof.
  revert n m. induction s as [|c s IH]; intros [|n] [|m];
    cbn [String.substring String.length]; rewrite ?IH; lia.
Qed.

Lemma repeatChar_length (n : nat) (c : ascii) :
  String.length (ApiHelpers.repeatChar n c) = n.
Proof. induction n as [|n IH]; simpl; [done | by rewrite IH]. Qed.

Lemma padStart_length (n : nat) (c : ascii) (s : string) :
  String.length (ApiHelpers.padStart n c s) = Nat.max n (String.length s).
Proof.
  unfold ApiHelpers.padStart.
  rewrite string_length_app, repeatChar_length. lia.
Qed.

Lemma sliceLast_length (n : nat) (s : string) :
  String.length (ApiHelpers.sliceLast n s) = Nat.min n (String.length s).
Proof. unfold ApiHelpers.sliceLast. rewrite substring_length. lia. Qed.

Lemma pretty_Z_digits (k : nat) (z : Z) :
  0 <= z < 10 ^ Z.of_nat (S k) ->
  (1 <= String.length (pretty z) <= S k)%nat.
Proof.
  induction k as [|k IH]; intros [Hlo Hhi].
  - destruct (decide (z = 0)) as [->|Hz]; [vm_compute; lia|].
    rewrite (pretty_Z_length 0); [lia|]. simpl. lia.
  - destruct (decide (z < 10 ^ Z.of_nat (S k))) as [Hlt|Hge].
    + specialize (IH (conj Hlo Hlt)). lia.
    + rewrite (pretty_Z_length (S k)); [lia|]. lia.
Qed.

Lemma pretty_Z_digits_ge (n k : nat) (z : Z) :
  10 ^ Z.of_nat k <= z < 10 ^ Z.of_nat (S n) ->
  (S k <= String.length (pretty z))%nat.
Proof.
  revert k. induction n as [|n IH]; intros k [Hlo Hhi].
  - assert (k = 0%nat) as ->.
    { destruct k as [|k]; [done|]. exfalso.
      assert (10 ^ 1 <= 10 ^ Z.of_nat (S k))
        by (apply Z.pow_le_mono_r; lia).
      simpl Z.of_nat in Hhi. lia. }
    rewrite (pretty_Z_length 0); [lia|]. split; assumption.
  - destruct (decide (z < 10 ^ Z.of_nat (S n))) as [Hlt|Hge].
    + apply IH. split; assumption.
    + rewrite (pretty_Z_length (S n)) by lia.
      assert (k <= S n)%nat; [|lia].
      apply Nat.lt_succ_r, Nat2Z.inj_lt.
      apply (Z.pow_lt_mono_r_iff 10); lia.
Qed.

(** X26. The confirmation number of [generateConfirmationNumber] has
    twelve characters for every date of a year of two digits or more and
    every random draw below 10000, so the lookup route, which wants 6 to
    20 characters, hands it to the controller. *)
Theorem generateConfirmationNumber_length db year month day rnd :
  10 <= year -> 0 <= month <= 11 -> 1 <= day <= 31 -> 0 <= rnd < 10000 ->
  String.length (ApiHelpers.generateConfirmationNumber year month day rnd)
  = 12%nat
  /\ BookingRoutes.getByConfirmation db
       (ApiHelpers.generateConfirmationNumber year month day rnd)
     = BookingQueries.getBookingByConfirmation db
         (ApiHelpers.generateConfirmationNumber year month day rnd).
Proof.
  intros Hy Hm Hd Hr.
  assert (Hlen : String.length
            (ApiHelpers.generateConfirmationNumber year month day rnd)
          = 12%nat).
  { unfold ApiHelpers.generateConfirmationNumber.
    rewrite !string_length_app, sliceLast_length, !padStart_length.
    pose proof (pretty_Z_digits_ge (Z.to_nat year) 1 year) as Hyear.
    pose proof (pretty_Z_digits 1 (month + 1)) as Hmonth.
    pose proof (pretty_Z_digits 1 day) as Hday.
    pose proof (pretty_Z_digits 3 rnd) as Hrnd.
    assert (year < 10 ^ Z.of_nat (S (Z.to_nat year))).
    { rewrite Nat2Z.inj_succ, Z2Nat.id, Z.pow_succ_r by lia.
      pose proof (Z.pow_gt_lin_r 10 year). lia. }
    change (10 ^ Z.of_nat 1) with 10 in Hyear.
    change (10 ^ Z.of_nat 2) with 100 in Hmonth, Hday.
    change (10 ^ Z.of_nat 4) with 10000 in Hrnd.
    cbn [String.length]. lia. }
  split; [exact Hlen|].
  unfold BookingRoutes.getByConfirmation. rewrite Hlen. reflexivity.
Qed.

Lemma generateConfirmationNumber_length_witness :
  String.length (ApiHelpers.generateConfirmationNumber 2025 7 1 42) = 12%nat.
Proof.
  destruct (generateConfirmationNumber_length [] 2025 7 1 42) as [H _];
    [lia | lia | lia | lia | exact H].
Defined.
